(** * Financial-Literacy-Chatbot: query shaping, context assembly, source
      formatting and the chunk scripts, embedded from the Python sources.

    Python [str] values are sequences of Unicode code points and are modelled
    as lists of code points.  [len], slicing, [in], [startswith], [replace],
    [join], [strip] and [split] are embedded exactly.  [lower] and the regex
    class [\d] are embedded for code points below 256 (Latin-1): above that
    range the Unicode case and digit tables are not reproduced and the code
    point is taken as caseless and as a non-digit. *)

From Stdlib Require Import String Ascii.
From Stdlib Require Import List NArith ZArith Bool Lia.
From Stdlib Require Numbers.DecimalString.
Import ListNotations.

Local Open Scope list_scope.
Local Open Scope bool_scope.

(* ================================================================== *)
(** ** Python strings *)

Module PyStr.

Definition char := N.
Definition str := list char.

(** A literal of the source, written as a Rocq string of ASCII characters. *)
Definition py (s : String.string) : str :=
  map N_of_ascii (String.list_ascii_of_string s).

Definition NL : str := [10%N].
Definition DQ : str := [34%N].

Definition between (lo hi c : N) : bool := (lo <=? c)%N && (c <=? hi)%N.

(** [str.lower] on one code point: A-Z, and the Latin-1 capitals
    U+00C0..U+00DE except the multiplication sign U+00D7. *)
Definition lower_char (c : char) : char :=
  if between 65 90 c || between 192 214 c || between 216 222 c
  then (c + 32)%N else c.

Definition lower (s : str) : str := map lower_char s.

(** [str.isspace] on one code point (also the regex class [\s]). *)
Definition isspace (c : char) : bool :=
  between 9 13 c || between 28 32 c || (c =? 133)%N || (c =? 160)%N
  || (c =? 5760)%N || between 8192 8202 c || (c =? 8232)%N || (c =? 8233)%N
  || (c =? 8239)%N || (c =? 8287)%N || (c =? 12288)%N.

(** The regex class [\d], decimal digits 0-9. *)
Definition isdigit (c : char) : bool := between 48 57 c.

Fixpoint eqb (a b : str) : bool :=
  match a, b with
  | [], [] => true
  | x :: a', y :: b' => (x =? y)%N && eqb a' b'
  | _, _ => false
  end.

(** [s.startswith(p)] *)
Fixpoint startswith (p s : str) : bool :=
  match p, s with
  | [], _ => true
  | _ :: _, [] => false
  | x :: p', y :: s' => (x =? y)%N && startswith p' s'
  end.

(** [sub in s] *)
Fixpoint contains (sub s : str) : bool :=
  startswith sub s ||
  match s with
  | [] => false
  | _ :: t => contains sub t
  end.

Fixpoint take_while (f : char -> bool) (s : str) : str :=
  match s with
  | [] => []
  | c :: t => if f c then c :: take_while f t else []
  end.

Fixpoint drop_while (f : char -> bool) (s : str) : str :=
  match s with
  | [] => []
  | c :: t => if f c then drop_while f t else s
  end.

Definition lstrip (s : str) : str := drop_while isspace s.
Definition rstrip (s : str) : str := rev (drop_while isspace (rev s)).

(** [s.strip()] *)
Definition strip (s : str) : str := rstrip (lstrip s).

(** [s.split()]: maximal runs of non-whitespace code points.  [cur] holds
    the word being read, reversed. *)
Fixpoint split_aux (cur : str) (s : str) : list str :=
  match s with
  | [] => match cur with [] => [] | _ => [rev cur] end
  | c :: t =>
      if isspace c
      then match cur with
           | [] => split_aux [] t
           | _ => rev cur :: split_aux [] t
           end
      else split_aux (c :: cur) t
  end.

Definition split (s : str) : list str := split_aux [] s.

(** [s.replace(old, new)] for a non-empty [old]: leftmost occurrences, not
    overlapping.  [skip] counts the code points of an occurrence that are
    still to be dropped. *)
Fixpoint replace_aux (old new : str) (skip : nat) (s : str) : str :=
  match s with
  | [] => []
  | c :: t =>
      match skip with
      | S k => replace_aux old new k t
      | O =>
          if startswith old s
          then new ++ replace_aux old new (Nat.pred (length old)) t
          else c :: replace_aux old new 0 t
      end
  end.

Definition replace (old new s : str) : str :=
  match old with
  | [] => s
  | _ => replace_aux old new 0 s
  end.

(** [sep.join(parts)] *)
Fixpoint join (sep : str) (parts : list str) : str :=
  match parts with
  | [] => []
  | [p] => p
  | p :: rest => p ++ sep ++ join sep rest
  end.

(** [int(ds)] for a run of decimal digits. *)
Definition int_of_digits (ds : str) : Z :=
  fold_left (fun acc c => (10 * acc + (Z.of_N c - 48))%Z) ds 0%Z.

(** [str(n)], as an f-string renders an [int]. *)
Definition str_of_int (n : Z) : str :=
  py (DecimalString.NilZero.string_of_int (Z.to_int n)).

End PyStr.

Import PyStr.

(* ================================================================== *)
(** ** Python values held in metadata and documents *)

Module PyVal.

Inductive pyval :=
| PNone
| PStr (s : str)
| PInt (n : Z).

(** Truth value of [v] in a condition. *)
Definition truthy (v : pyval) : bool :=
  match v with
  | PNone => false
  | PStr [] => false
  | PStr (_ :: _) => true
  | PInt n => negb (n =? 0)%Z
  end.

(** [a or b] *)
Definition py_or (a b : pyval) : pyval := if truthy a then a else b.

(** A [dict] with [str] keys, in insertion order. *)
Definition dict := list (str * pyval).

Fixpoint dict_get (k : str) (d : dict) : option pyval :=
  match d with
  | [] => None
  | (k', v) :: rest => if eqb k k' then Some v else dict_get k rest
  end.

(** [d.get(k, default)] *)
Definition get_default (d : dict) (k : str) (default : pyval) : pyval :=
  match dict_get k d with
  | Some v => v
  | None => default
  end.

Definition values (d : dict) : list pyval := map snd d.

End PyVal.

Import PyVal.

(* ================================================================== *)
(** ** streamlit/s_app.py *)

Module SApp.

(** *** rewrite_query *)

Definition financial_keywords : list (str * str) :=
  [ (py "save", py "saving tips money management");
    (py "budget", py "budgeting financial planning spending");
    (py "debt", py "debt management loan credit card");
    (py "invest", py "investment returns stocks bonds");
    (py "retire", py "retirement planning EPF KWSP");
    (py "emergency", py "emergency fund savings buffer");
    (py "mistake", py "common mistakes errors avoid financial");
    (py "scam", py "scam fraud prevention red flags");
    (py "insurance", py "insurance medical coverage protection");
    (py "tax", py "income tax filing LHDN deduction") ].

Definition rewrite_query (query : str) : str :=
  let query_lower := lower query in
  match find (fun kv => contains (fst kv) query_lower) financial_keywords with
  | Some (_, expansion) => query ++ py " " ++ expansion
  | None => query
  end.

(** *** detect_query_intent *)

Record intent := {
  list_type : option str;
  count : option Z;
  is_question : bool
}.

Definition question_starts : list str :=
  map py ["what"; "how"; "why"; "when"; "where"; "can"; "should"; "is";
          "are"; "do"; "does"]%string.

Definition list_patterns : list (str * list str) :=
  [ (py "mistakes", map py ["mistake"; "error"; "wrong"; "avoid"; "don't"; "never"]%string);
    (py "tips", map py ["tip"; "advice"; "suggestion"; "recommend"]%string);
    (py "ways", map py ["way"; "method"; "how to"]%string);
    (py "steps", map py ["step"; "process"; "procedure"]%string);
    (py "reasons", map py ["reason"; "why"; "cause"]%string);
    (py "habits", map py ["habit"; "practice"; "routine"]%string) ].

(** The alternatives of the second group of the count pattern. *)
Definition count_nouns : list str :=
  map py ["mistake"; "tip"; "way"; "step"; "reason"; "habit"; "thing";
          "point"]%string.

(** The pattern [(\d+)\s*(mistake|tip|...|point)] tried at the start of [s].
    Both quantifiers are greedy and no noun starts with a digit or with
    whitespace, so giving back a digit or a space never lets the rest
    match: the attempt succeeds exactly when the longest digit run, then the
    longest whitespace run, is followed by one of the nouns.  The result is
    [int(group(1))]. *)
Definition match_count_at (s : str) : option Z :=
  match take_while isdigit s with
  | [] => None
  | ds =>
      let rest := drop_while isspace (skipn (length ds) s) in
      if existsb (fun noun => startswith noun rest) count_nouns
      then Some (int_of_digits ds)
      else None
  end.

(** [re.search]: the leftmost position where the pattern matches. *)
Fixpoint search_count (s : str) : option Z :=
  match match_count_at s with
  | Some n => Some n
  | None =>
      match s with
      | [] => None
      | _ :: t => search_count t
      end
  end.

Definition word_nums : list (str * Z) :=
  [ (py "one", 1); (py "two", 2); (py "three", 3); (py "four", 4);
    (py "five", 5); (py "six", 6); (py "seven", 7); (py "eight", 8);
    (py "nine", 9); (py "ten", 10) ]%Z.

(** The [else] branch of the count detection: the loop over [word_nums]. *)
Definition word_count (query_lower : str) : option Z :=
  match find (fun wn => contains (fst wn) query_lower) word_nums with
  | Some (_, num) => Some num
  | None => None
  end.

Definition detect_query_intent (query : str) : intent :=
  let query_lower := lower query in
  {| list_type :=
       match find (fun lp => existsb (fun p => contains p query_lower) (snd lp))
                  list_patterns with
       | Some (lt, _) => Some lt
       | None => None
       end;
     count :=
       match search_count query_lower with
       | Some n => Some n
       | None => word_count query_lower
       end;
     is_question :=
       contains (py "?") query
       || existsb (fun w => startswith w query_lower) question_starts |}.

(** *** run_rag_chain *)

(** An attribute (or dict entry) that holds a [str]: missing, [None], or a
    text. *)
Inductive attr :=
| Absent
| IsNone
| Text (s : str).

(** A retrieved document: an object with attributes (a LangChain
    [Document] has [page_content] and [metadata]), or a plain [dict], of
    which only the ["page_content"] entry is read. *)
Inductive doc :=
| Document (page_content content : attr) (metadata : option dict)
| DictDoc (page_content_item : attr).

(** [getattr(doc, name, None)] and [doc.get(name)] *)
Definition or_none (a : attr) : option str :=
  match a with
  | Text s => Some s
  | _ => None
  end.

Definition nonempty (v : option str) : bool :=
  match v with
  | Some (_ :: _) => true
  | _ => false
  end.

(** [getattr(doc, "page_content", None) or getattr(doc, "content", None)
     or (doc.get("page_content") if isinstance(doc, dict) else None)] *)
Definition doc_content (d : doc) : option str :=
  let first := match d with Document pc _ _ => or_none pc | DictDoc _ => None end in
  let second := match d with Document _ c _ => or_none c | DictDoc _ => None end in
  let third := match d with Document _ _ _ => None | DictDoc pc => or_none pc end in
  if nonempty first then first
  else if nonempty second then second
  else third.

(** What one document-fetch method does when called. *)
Inductive fetch_result :=
| Raises
| Returns (docs : option (list doc)).

(** A retriever: for a method name, [None] when [hasattr] is false. *)
Definition retriever := str -> option (str -> fetch_result).

Definition fetch_methods : list str :=
  map py ["get_relevant_documents"; "get_retrievals"; "retrieve";
          "get_documents"; "invoke"]%string.

(** The loop over the method names; [docs] starts as the empty list. *)
Fixpoint fetch_docs (r : retriever) (methods : list str) (expanded_query : str)
  : option (list doc) :=
  match methods with
  | [] => Some []
  | method :: rest =>
      match r method with
      | Some call =>
          match call expanded_query with
          | Returns docs => docs
          | Raises => fetch_docs r rest expanded_query
          end
      | None => fetch_docs r rest expanded_query
      end
  end.

Definition rag_docs (query : str) (r : retriever) : list doc :=
  match fetch_docs r fetch_methods (rewrite_query query) with
  | Some docs => docs
  | None => []
  end.

Definition max_chars : nat := 1500.

(** The loop that fills [context_parts]; [total_chars] is its counter. *)
Fixpoint context_loop (docs : list doc) (total_chars : nat) : list str :=
  match docs with
  | [] => []
  | d :: rest =>
      match doc_content d with
      | Some (c :: cs) =>
          let content := c :: cs in
          if total_chars + length content <=? max_chars
          then content :: context_loop rest (total_chars + length content)
          else
            let remaining := max_chars - total_chars in
            if 200 <? remaining then [firstn remaining content] else []
      | _ => context_loop rest total_chars
      end
  end.

Definition context_parts (docs : list doc) : list str := context_loop docs 0.

Definition rag_context (query : str) (r : retriever) : str :=
  join (NL ++ NL) (context_parts (rag_docs query r)).

Record source := {
  content : pyval;
  metadata : dict
}.

Definition source_of (d : doc) : source :=
  match d with
  | Document pc _ md =>
      {| content := match pc with
                    | Absent => PStr []
                    | IsNone => PNone
                    | Text s => PStr s
                    end;
         metadata := match md with Some m => m | None => [] end |}
  | DictDoc _ => {| content := PStr []; metadata := [] |}
  end.

(** The text demanding [n] items. *)
Definition count_instruction_for (n : Z) : str :=
    py "The user asked for exactly " ++ str_of_int n ++ py " items. You MUST provide exactly " ++ str_of_int n ++ py " items, no more, no less.".

Definition rag_count_instruction (i : intent) : str :=
  match count i with
  | Some n => if (n =? 0)%Z then [] else count_instruction_for n
  | None => []
  end.

Definition rag_list_format (i : intent) : str :=
  match list_type i with
  | Some lt =>
      if eqb lt (py "mistakes") then py "mistakes (things to AVOID)"
      else if eqb lt (py "steps") then py "steps (in order)"
      else if eqb lt (py "reasons") then py "reasons"
      else if eqb lt (py "ways") then py "ways"
      else if eqb lt (py "habits") then py "habits"
      else py "tips"
  | None => py "tips"
  end.

Definition strict_prompt (count_instruction context query : str) : str :=
    py "You are a friendly financial literacy assistant helping Malaysian youth with money management." ++ NL ++
  NL ++
  py "STRICT RULES:" ++ NL ++
  py "1. Answer ONLY using information from the Context below" ++ NL ++
  py "2. Do NOT make up information not in the Context" ++ NL ++
  py "3. Keep each point BRIEF (1-2 sentences max per point)" ++ NL ++
  py "4. Use Malaysian context (RM, EPF/KWSP)" ++ NL ++
  NL ++
  count_instruction ++ NL ++
  NL ++
  py "Context:" ++ NL ++
  context ++ NL ++
  NL ++
  py "User Question: " ++ query ++ NL ++
  NL ++
  py "RESPONSE FORMAT:" ++ NL ++
  py "- One sentence introduction" ++ NL ++
  py "- List multiple points concisely:" ++ NL ++
  py "  1. **[Title]**: Brief explanation (1-2 sentences)" ++ NL ++
  py "  2. **[Title]**: Brief explanation (1-2 sentences)" ++ NL ++
  py "  3. **[Title]**: Brief explanation (1-2 sentences)" ++ NL ++
  py "- One practical tip at the end" ++ NL ++
  NL ++
  py "IMPORTANT: Keep each point SHORT. Cover MORE points rather than explaining one point in detail." ++ NL ++
  NL ++
  py "Answer:".

Definition hybrid_prompt (count_instruction context query : str) : str :=
    py "You are a financial literacy assistant for Malaysian youth." ++ NL ++
  NL ++
  py "RULES:" ++ NL ++
  py "1. Use the Context below as your PRIMARY source" ++ NL ++
  py "2. You may add supplementary info, label it " ++ DQ ++ py "[Supplementary]" ++ DQ ++ NL ++
  py "3. Keep each point BRIEF (1-2 sentences)" ++ NL ++
  py "4. Use Malaysian context (RM, EPF/KWSP)" ++ NL ++
  NL ++
  count_instruction ++ NL ++
  NL ++
  py "Context:" ++ NL ++
  context ++ NL ++
  NL ++
  py "Question: " ++ query ++ NL ++
  NL ++
  py "RESPONSE FORMAT:" ++ NL ++
  py "- Brief introduction" ++ NL ++
  py "- List points concisely:" ++ NL ++
  py "  1. **[Title]**: Brief explanation" ++ NL ++
  py "  2. **[Title]**: Brief explanation" ++ NL ++
  py "- One practical tip" ++ NL ++
  NL ++
  py "IMPORTANT: Cover MORE points briefly rather than few points in detail." ++ NL ++
  NL ++
  py "Answer:".

Definition model_only_prompt (count_instruction query list_format : str) : str :=
    py "You are a financial literacy assistant for Malaysian youth." ++ NL ++
  NL ++
  count_instruction ++ NL ++
  NL ++
  py "Question: " ++ query ++ NL ++
  NL ++
  py "RULES:" ++ NL ++
  py "1. Provide thorough, educational explanations (200-250 words)" ++ NL ++
  py "2. Use Malaysian context (RM, EPF/KWSP) where possible" ++ NL ++
  py "3. If listing " ++ list_format ++ py ", explain WHY each point matters" ++ NL ++
  py "4. Include practical examples with specific amounts" ++ NL ++
  py "5. If unsure, acknowledge it but still provide helpful guidance" ++ NL ++
  NL ++
  py "Answer:".

Definition rag_prompt (query : str) (r : retriever) (rag_mode : str) : str :=
  let i := detect_query_intent query in
  if eqb rag_mode (py "Strict")
  then strict_prompt (rag_count_instruction i) (rag_context query r) query
  else if eqb rag_mode (py "Hybrid")
  then hybrid_prompt (rag_count_instruction i) (rag_context query r) query
  else model_only_prompt (rag_count_instruction i) query (rag_list_format i).

Definition rag_sources (query : str) (r : retriever) (rag_mode : str)
  : list source :=
  if eqb rag_mode (py "Strict") || eqb rag_mode (py "Hybrid")
  then map source_of (rag_docs query r)
  else [].

(** [db] stands for the retriever that [db.as_retriever] builds, and [llm]
    for [llm.stream].  The result is the pair the function returns. *)
Definition run_rag_chain {Stream : Type} (query : str) (db : retriever)
    (llm : str -> Stream) (rag_mode : str) : Stream * list source :=
  (llm (rag_prompt query db rag_mode), rag_sources query db rag_mode).

(** *** ARTICLE_URLS *)

Record article := {
  title : str;
  url : str
}.

Definition entry (key t u : string) : str * article :=
  (py key, {| title := py t; url := py u |}).

Definition ARTICLE_URLS : list (str * article) :=
  [ entry "smart_budgeting_technique"
        "Smart Budgeting Technique"
        "https://www.kwsp.gov.my/w/infographic/smart-budgeting-technique";
    entry "first_salary_tips"
        "First Salary Tips"
        "https://www.kwsp.gov.my/w/article/first-salary-tips";
    entry "travelling_green_tips"
        "Travelling Green Tips"
        "https://www.kwsp.gov.my/w/article/travelling-green-tips";
    entry "insurance_tips"
        "Insurance Tips"
        "https://www.kwsp.gov.my/w/infographic/insurance-tips";
    entry "saving_tips_for_gig_worker"
        "Savings Tips for Gig Workers"
        "https://www.kwsp.gov.my/w/infographic/savings-tips-for-gig-workers";
    entry "death_assistance"
        "EPF Death Assistance"
        "https://www.kwsp.gov.my/w/article/epf-death-assistance";
    entry "multiple_savings_with_i_saraan"
        "Multiply Savings with i-Saraan"
        "https://www.kwsp.gov.my/w/infographic/multiply-savings-with-i-saraan";
    entry "expense_after_retired"
        "Expenses After Retirement"
        "https://www.kwsp.gov.my/w/article/expenses-after-retired";
    entry "fomo_shopping"
        "FOMO Shopping"
        "https://www.kwsp.gov.my/w/article/fomo-shopping";
    entry "why_medical_insurance_importance"
        "Why Medical Insurance is Important"
        "https://www.kwsp.gov.my/w/article/why-medical-insurance-is-important";
    entry "buy_vs_rent"
        "Buy vs Rent Malaysia"
        "https://www.kwsp.gov.my/w/article/buy-vs-rent-malaysia";
    entry "fashion_on_a_budget"
        "Fashion on a Budget"
        "https://www.kwsp.gov.my/w/article/fashion-on-a-budget";
    entry "budgeting_rule"
        "50-30-20 Rule"
        "https://www.kwsp.gov.my/w/article/50-30-20-rule";
    entry "file_income_tax"
        "How to File Income Tax"
        "https://www.kwsp.gov.my/w/article/how-to-file-income-tax";
    entry "compound_interest_benefits"
        "Compound Interest Benefits"
        "https://www.kwsp.gov.my/w/article/compound-interest-benefits";
    entry "pay_yourself_first"
        "Pay Yourself First"
        "https://www.kwsp.gov.my/w/article/pay-yourself-first";
    entry "new_year_financial_goals"
        "New Year Financial Goals"
        "https://www.kwsp.gov.my/w/article/new-year-financial-goals";
    entry "master_your_finance"
        "Master Your Finance"
        "https://www.kwsp.gov.my/w/article/master-your-finance";
    entry "quick_ways_to_losing_savings"
        "Quick Ways to Lose Savings"
        "https://www.kwsp.gov.my/w/article/quick-ways-to-lose-savings";
    entry "surviving_on_paycheck"
        "Surviving on Paycheck"
        "https://www.kwsp.gov.my/w/article/surviving-on-paycheck";
    entry "scam_red_flags"
        "Scam Red Flags"
        "https://www.kwsp.gov.my/w/article/scam-red-flags";
    entry "vacation_on_budget"
        "Vacation on Budget"
        "https://www.kwsp.gov.my/w/article/vacation-on-budget";
    entry "save_money_malaysian_ways"
        "Save Money Malaysian Ways"
        "https://www.kwsp.gov.my/w/article/save-money-malaysian-ways";
    entry "financial_independence"
        "Financial Independence"
        "https://www.kwsp.gov.my/w/article/financial-independence";
    entry "how_to_avoid_online_scam"
        "How to Avoid Online Scam"
        "https://www.kwsp.gov.my/w/article/how-to-avoid-online-scam";
    entry "buy_first_think_later"
        "Buy First Think Later"
        "https://www.kwsp.gov.my/w/article/buy-first-think-later";
    entry "income_and_your_savings"
        "Income and Your Savings"
        "https://www.kwsp.gov.my/w/article/income-and-your-savings";
    entry "retirement_planning_tips"
        "Retirement Planning Tips"
        "https://www.kwsp.gov.my/w/article/retirement-planning-tips";
    entry "savings_and_inflation"
        "Savings and Inflation"
        "https://www.kwsp.gov.my/w/article/savings-and-inflation";
    entry "achieve_money_goals"
        "Achieve Money Goals"
        "https://www.kwsp.gov.my/w/article/achieve-money-goal";
    entry "how_to_use_akaun_3"
        "How to Use Akaun 3"
        "https://www.kwsp.gov.my/w/article/how-to-use-akaun-3";
    entry "saving_for_festives"
        "Savings for Festives"
        "https://www.kwsp.gov.my/w/article/savings-for-festives";
    entry "shariah_retirement"
        "Simpanan Shariah Retirement"
        "https://www.kwsp.gov.my/w/article/simpanan-shariah-retirement";
    entry "invest_smarter"
        "Invest Smarter"
        "https://www.kwsp.gov.my/w/article/invest-smarter";
    entry "retirement_calculator"
        "Retirement Calculator"
        "https://www.kwsp.gov.my/w/article/retirement-calculator";
    entry "ensuring_wife_future"
        "Ensuring Wife Future"
        "https://www.kwsp.gov.my/w/article/ensuring-wife-future";
    entry "epf_house"
        "EPF Housing Withdrawal"
        "https://www.kwsp.gov.my/w/article/epf-housing-withdrawal";
    entry "emergency_fund"
        "Emergency Fund"
        "https://www.kwsp.gov.my/w/article/emergency-fund";
    entry "reward_yourself"
        "Reward Yourself"
        "https://www.kwsp.gov.my/w/article/reward-yourself";
    entry "unwise_spending_habits"
        "Unwise Spending Habits"
        "https://www.kwsp.gov.my/w/article/unwise-spending-habits";
    entry "boost_your_savings"
        "Boost Your Savings"
        "https://www.kwsp.gov.my/w/article/boost-your-savings";
    entry "reasons_to_save_money"
        "Reasons to Save Money"
        "https://www.kwsp.gov.my/w/article/reasons-to-save-money";
    entry "kwsp_gov_my_w_article_50_30_20_rule"
        "50-30-20 Rule"
        "https://www.kwsp.gov.my/w/article/50-30-20-rule";
    entry "kwsp_gov_my_w_article_expenses_after_retired"
        "Expenses After Retirement"
        "https://www.kwsp.gov.my/w/article/expenses-after-retired";
    entry "kwsp_gov_my_w_article_why_medical_insurance_is_important"
        "Why Medical Insurance is Important"
        "https://www.kwsp.gov.my/w/article/why-medical-insurance-is-important";
    entry "kwsp_gov_my_w_infographic_savings_tips_for_gig_workers"
        "Savings Tips for Gig Workers"
        "https://www.kwsp.gov.my/w/infographic/savings-tips-for-gig-workers";
    entry "educational_methodologies_of_personal_finance"
        "Educational Methodologies of Personal Finance"
        "https://www.financialeducatorscouncil.org/wp-content/uploads/Educational-Methodologies-of-Personal-Finance.pdf";
    entry "flcc_for_malaysian_adults_compressed"
        "Financial Literacy for Malaysian Adults"
        "https://www.fenetwork.my/wp-content/uploads/2023/02/Financial-Literacy-Core-Competencies-for-Malaysian-Adults.pdf";
    entry "framework_for_teaching_personal_finance"
        "Framework for Teaching Personal Finance"
        "https://www.financialeducatorscouncil.org/wp-content/uploads/Framework-for-Teaching-Personal-Finance.pdf";
    entry "learner_framework_standards_for_high_school_college_adults"
        "Learner Framework Standards for Financial Literacy"
        "https://www.financialeducatorscouncil.org/wp-content/uploads/DOC_PKG_EXC_-NFEC-Learner-Framework-Standards-for-High-School-College-Adults-_3.4.09.pdf";
    entry "nfec_report_policy_and_standards_framework_for_high_school_financial_literacy_education"
        "NFEC: Policy and Standards Framework for Financial Literacy"
        "https://www.financialeducatorscouncil.org/wp-content/uploads/nfec-report-policy-and-standards-framework-for-high-school-financial-literacy-education.pdf";
    entry "smart_technique_an_easy_way_to_achieve_financial_goals_kwsp_malaysia"
        "S.M.A.R.T Technique: Achieve Financial Goals"
        "https://www.kwsp.gov.my/en/w/infographic/smart-budgeting-technique";
    ((py "5 mistakes young adult make with money " ++ [8218%N; 196%N; 238%N] ++ py " lalua rahsiad.jsonl"),
     Build_article
       (py "5 Mistakes Young Adults Make With Money")
       (py "https://www.laluarahsiad.com/blog-2/blog2"));
    ((py "what no one tells you about budgeting in your 20s " ++ [8218%N; 196%N; 238%N] ++ py " lalua rahsiad.jsonl"),
     Build_article
       (py "What No One Tells You About Budgeting in Your 20s")
       (py "https://www.laluarahsiad.com/blog-2/blog3"));
    ((py "why financial freedom starts with your mindset " ++ [8218%N; 196%N; 238%N] ++ py " lalua rahsiad.jsonl"),
     Build_article
       (py "Why Financial Freedom Starts with Your Mindset")
       (py "https://www.laluarahsiad.com/blog-2/blog1"));
    entry "how to celebrate deepavali without overspending - kwsp malaysia.jsonl"
        "Celebrate Deepavali Without Overspending"
        "https://www.kwsp.gov.my/en/w/article/celebrate-deepavali-without-overspending";
    entry "article 4 (digital financial).jsonl"
        "Digital Financial Management"
        "https://www.akpk.org.my/sites/default/files/2024-12/ARTICLE%204%20%28DIGITAL%20FINANCIAL%29.pdf";
    entry "article 6 (getting into debt).jsonl"
        "Getting Into Debt: What You Need to Know"
        "https://www.akpk.org.my/sites/default/files/2025-02/ARTICLE%206%20%28GETTING%20INTO%20DEBT%29.pdf";
    entry "article 8 (breaking the chains).jsonl"
        "Breaking the Chains of Debt"
        "https://www.akpk.org.my/sites/default/files/2025-02/ARTICLE%208%20%28BREAKING%20THE%20CHAINS%29.pdf";
    entry "s.m.a.r.t technique_ an easy way to achieve financial goals - kwsp malaysia.jsonl"
        "S.M.A.R.T Technique: Achieve Financial Goals"
        "https://www.kwsp.gov.my/en/w/infographic/smart-budgeting-technique";
    entry "financial fraud prevention and detection_ governance and effective practices ( pdfdrive ).jsonl"
        "Financial Fraud Prevention and Detection"
        "https://institutes.abu.edu.ng/idr/public/assets/docs/Financial%20Fraud%20Prevention%20and%20Detection_%20Governance%20and%20Effective%20Practices%20(%20PDFDrive%20).pdf";
    entry "www_kwsp.gov"
        "BNPL: Buy Now Pay Later"
        "https://www.kwsp.gov.my/w/article/buy-now-pay-later";
    entry "buying_first_car"
        "Buying Your First Car"
        "https://www.kwsp.gov.my/w/article/buying-first-car";
    entry "early_retirement_habits"
        "Early Retirement Habits"
        "https://www.kwsp.gov.my/w/article/early-retirement-habits";
    entry "5_mistakes_young_adult_make_with_money_lalua_rahsiad"
        "5 Mistakes Young Adults Make With Money"
        "https://www.laluarahsiad.com/blog-2/blog2";
    entry "what_no_one_tells_you_about_budgeting_in_your_20s_lalua_rahsiad"
        "What No One Tells You About Budgeting in Your 20s"
        "https://www.laluarahsiad.com/blog-2/blog3";
    entry "why_financial_freedom_starts_with_your_mindset_lalua_rahsiad"
        "Why Financial Freedom Starts with Your Mindset"
        "https://www.laluarahsiad.com/blog-2/blog1";
    entry "how_to_celebrate_deepavali_without_overspending_kwsp_malaysia"
        "Celebrate Deepavali Without Overspending"
        "https://www.kwsp.gov.my/en/w/article/celebrate-deepavali-without-overspending";
    entry "article_4_digital_financial"
        "Digital Financial Management"
        "https://www.akpk.org.my/sites/default/files/2024-12/ARTICLE%204%20%28DIGITAL%20FINANCIAL%29.pdf";
    entry "article_6_getting_into_debt"
        "Getting Into Debt: What You Need to Know"
        "https://www.akpk.org.my/sites/default/files/2025-02/ARTICLE%206%20%28GETTING%20INTO%20DEBT%29.pdf";
    entry "article_8_breaking_the_chains"
        "Breaking the Chains of Debt"
        "https://www.akpk.org.my/sites/default/files/2025-02/ARTICLE%208%20%28BREAKING%20THE%20CHAINS%29.pdf" ].

(** [key in ARTICLE_URLS] and [ARTICLE_URLS[key]] *)
Fixpoint table_get (key : str) (table : list (str * article)) : option article :=
  match table with
  | [] => None
  | (k, info) :: rest => if eqb key k then Some info else table_get key rest
  end.

(** The loop [for key in ARTICLE_URLS: if key in k or k in key: ...] *)
Definition partial_match (k : str) (table : list (str * article))
  : option article :=
  match find (fun e => contains (fst e) k || contains k (fst e)) table with
  | Some (_, info) => Some info
  | None => None
  end.

(** *** extract_source_url *)

Definition default_url : str := py "https://www.kwsp.gov.my".

Definition url_keys : list str :=
  map py ["url"; "source"; "source_url"; "link"; "href"; "webpage_url";
          "uri"]%string.

Definition with_scheme (v : str) : str :=
  if startswith (py "www") v then py "https://" ++ v else v.

Fixpoint url_from_keys (metadata : dict) (keys : list str) : option str :=
  match keys with
  | [] => None
  | k :: rest =>
      match dict_get k metadata with
      | Some (PStr v) =>
          if truthy (PStr v)
             && (startswith (py "http") v || startswith (py "www") v)
          then Some (with_scheme v)
          else url_from_keys metadata rest
      | _ => url_from_keys metadata rest
      end
  end.

Fixpoint url_from_values (vs : list pyval) : option str :=
  match vs with
  | [] => None
  | PStr v :: rest =>
      if contains (py "http") v || startswith (py "www") v
      then Some (with_scheme v)
      else url_from_values rest
  | _ :: rest => url_from_values rest
  end.

Definition extract_source_url (metadata : dict) : str :=
  match metadata with
  | [] => default_url
  | _ =>
      match url_from_keys metadata url_keys with
      | Some u => u
      | None =>
          match url_from_values (values metadata) with
          | Some u => u
          | None => default_url
          end
      end
  end.

(** *** get_article_info *)

(** The three code points the source writes for a dash in file names. *)
Definition DASH : str := [8218; 196; 238]%N.

(** [s.lower().replace(" ", "_").replace("-", "_").replace(DASH, "_")
      .replace(".jsonl", "").replace(".pdf", "").strip()] *)
Definition normalize_key (s : str) : str :=
  strip
    (replace (py ".pdf") []
       (replace (py ".jsonl") []
          (replace DASH (py "_")
             (replace (py "-") (py "_")
                (replace (py " ") (py "_") (lower s)))))).

#[local] Notation "x <- e ;; k" :=
  (match e with Some x => k | None => None end)
  (at level 61, e at next level, right associativity, only parsing).

(** [meta_title and (w in meta_title.lower() or ...)]; [None] when
    [meta_title] is a number, which has no [lower]. *)
Definition title_has (meta_title : pyval) (words : list str) : option bool :=
  if truthy meta_title
  then match meta_title with
       | PStr t => Some (existsb (fun w => contains w (lower t)) words)
       | _ => None
       end
  else Some false.

(** [w in source_key.lower() or ... or (meta_title and ...)] *)
Definition key_or_title (source_key : str) (meta_title : pyval)
    (words : list str) : option bool :=
  if existsb (fun w => contains w (lower source_key)) words
  then Some true
  else title_has meta_title words.

Definition lalua_mistakes : pyval * str :=
  (PStr (py "5 Mistakes Young Adults Make With Money"),
   py "https://www.laluarahsiad.com/blog-2/blog2").
Definition lalua_budgeting : pyval * str :=
  (PStr (py "What No One Tells You About Budgeting in Your 20s"),
   py "https://www.laluarahsiad.com/blog-2/blog3").
Definition lalua_mindset : pyval * str :=
  (PStr (py "Why Financial Freedom Starts with Your Mindset"),
   py "https://www.laluarahsiad.com/blog-2/blog1").

(** The block for Lalua Rahsiad articles: [Some r] when it returns [r]. *)
Definition lalua_block (source_key : str) (meta_title : pyval)
  : option (option (pyval * str)) :=
  lalua <- key_or_title source_key meta_title [py "lalua"] ;;
  if lalua then
    mistake <- key_or_title source_key meta_title [py "mistake"] ;;
    if mistake then Some (Some lalua_mistakes) else
    budget <- key_or_title source_key meta_title [py "budget"] ;;
    if budget then Some (Some lalua_budgeting) else
    mindset <- key_or_title source_key meta_title [py "mindset"; py "freedom"] ;;
    if mindset then Some (Some lalua_mindset) else Some None
  else Some None.

(** The block matching on the metadata title: [Some r] when it returns. *)
Definition title_block (meta_title : pyval) : option (option (pyval * str)) :=
  if truthy meta_title
  then match meta_title with
       | PStr t =>
           let title_key := normalize_key t in
           match table_get title_key ARTICLE_URLS with
           | Some info => Some (Some (PStr (title info), url info))
           | None =>
               match partial_match title_key ARTICLE_URLS with
               | Some info => Some (Some (PStr (title info), url info))
               | None => Some None
               end
           end
       | _ => None
       end
  else Some None.

Section OsPath.

(** [os.path.basename], which depends on the platform. *)
Variable basename : str -> str.

(** The result is [None] where the Python raises (a number where a [str]
    method is called). *)
Definition get_article_info (source_name : pyval) (metadata : dict)
  : option (pyval * str) :=
  let source_file := get_default metadata (py "source_file") (PStr []) in
  source_name <-
    (if truthy source_file && negb (truthy source_name)
     then match source_file with
          | PStr f => Some (PStr (basename f))
          | _ => None
          end
     else Some source_name) ;;
  let meta_title := get_default metadata (py "title") (PStr []) in
  source_key <-
    (if truthy source_name
     then match source_name with
          | PStr s => Some (normalize_key s)
          | _ => None
          end
     else Some []) ;;
  early <- lalua_block source_key meta_title ;;
  match early with
  | Some r => Some r
  | None =>
      by_title <- title_block meta_title ;;
      match by_title with
      | Some r => Some r
      | None =>
          if negb (truthy source_name)
          then Some (get_default metadata (py "title") (PStr (py "Unknown Source")),
                     extract_source_url metadata)
          else
            match table_get source_key ARTICLE_URLS with
            | Some info => Some (PStr (title info), url info)
            | None =>
                match partial_match source_key ARTICLE_URLS with
                | Some info => Some (PStr (title info), url info)
                | None =>
                    Some (get_default metadata (py "title") source_name,
                          extract_source_url metadata)
                end
            end
      end
  end.

(** *** The source entry of show_chatbot_page *)

Record source_view := {
  view_title : pyval;
  view_url : str;
  from_source : pyval
}.

(** The body of the loop over [sources] in [show_chatbot_page], up to
    [from_source]. *)
Definition show_source (metadata : dict) : option source_view :=
  let source_file := get_default metadata (py "source_file") (PStr []) in
  source_name <-
    (if truthy source_file
     then match source_file with
          | PStr f => Some (PStr (basename f))
          | _ => None
          end
     else Some (get_default metadata (py "title")
                  (get_default metadata (py "source") (PStr [])))) ;;
  info <- get_article_info source_name metadata ;;
  let (t, u) := info in
  name <- (match source_name with PStr s => Some s | _ => None end) ;;
  lalua <-
    (if contains (py "lalua") (lower name) then Some true
     else match t with
          | PStr ts => Some (contains (py "lalua") (lower ts))
          | _ => None
          end) ;;
  Some {| view_title := t;
          view_url := u;
          from_source :=
            if lalua then PStr (py "Lalua Rahsiad Blog")
            else if contains (py "akpk") (lower u) then PStr (py "AKPK Malaysia")
            else if contains (py "kwsp") (lower u) || contains (py "epf") (lower u)
            then PStr (py "KWSP Malaysia")
            else get_default metadata (py "from")
                   (get_default metadata (py "company")
                      (PStr (py "Financial Education Resource"))) |}.

End OsPath.

(** *** is_greeting *)

Definition greetings : list str :=
  map py ["hi"; "hello"; "hey"; "hiya"; "good morning"; "good afternoon";
          "good evening"; "yo"]%string.

Definition is_greeting (text : str) : bool :=
  match text with
  | [] => false
  | _ =>
      let t := lower (strip text) in
      existsb (eqb t) greetings
      || (length (split t) <=? 2) && existsb (fun g => startswith g t) greetings
  end.

(** *** The chat turn of show_chatbot_page *)

Definition greeting_response : str :=
  py "Hello! I understand that a greeting means you'd like to start a conversation. " ++
  py "As a financial literacy chatbot, I'm here to help with questions about budgeting, saving, investing, debt, retirement (EPF/KWSP), and other personal finance topics. " ++
  py "How can I assist you today?".

(** What a turn hands to the page: the greeting shortcut sets the whole
    response at once, the other branch gets a stream from [run_rag_chain]. *)
Inductive reply (Stream : Type) :=
| Shortcut (full_response : str)
| Streamed (response_stream : Stream).
Arguments Shortcut {Stream} _.
Arguments Streamed {Stream} _.

Record turn (Stream : Type) := {
  turn_reply : reply Stream;
  turn_sources : list source;
  rag_calls : list (str * str)   (* the calls of run_rag_chain: prompt, mode *)
}.
Arguments turn_reply {Stream} _.
Arguments turn_sources {Stream} _.
Arguments rag_calls {Stream} _.

Definition chat_turn {Stream : Type} (prompt : str) (db : retriever)
    (llm : str -> Stream) (rag_mode : str) : turn Stream :=
  if is_greeting prompt
  then {| turn_reply := Shortcut greeting_response;
          turn_sources := [];
          rag_calls := [] |}
  else
    let (response_stream, sources) := run_rag_chain prompt db llm rag_mode in
    {| turn_reply := Streamed response_stream;
       turn_sources := sources;
       rag_calls := [(prompt, rag_mode)] |}.

End SApp.

Import SApp.

(* ================================================================== *)
(** ** JSON values, as [json.loads] builds them *)

Module Json.

(** A binary floating-point number: [m * 2^e] with a sign, or a special. *)
Inductive float :=
| Finite (neg : bool) (m : N) (e : Z)
| Infinity (neg : bool)
| NaN.

#[local] Set Warnings "-register-all".

Inductive json :=
| JNull
| JBool (b : bool)
| JInt (n : Z)
| JFloat (f : float)
| JStr (s : str)
| JList (items : list json)
| JDict (items : list (str * json)).

#[local] Set Warnings "register-all".

Definition object := list (str * json).

(** Truth value of [v] in a condition. *)
Definition truthy (v : json) : bool :=
  match v with
  | JNull => false
  | JBool b => b
  | JInt n => negb (n =? 0)%Z
  | JFloat (Finite _ m _) => negb (m =? 0)%N
  | JFloat _ => true
  | JStr s => negb (Nat.eqb (length s) 0)
  | JList l => negb (Nat.eqb (length l) 0)
  | JDict d => negb (Nat.eqb (length d) 0)
  end.

(** [len(v)]; [None] for a [TypeError]. *)
Definition len (v : json) : option nat :=
  match v with
  | JStr s => Some (length s)
  | JList l => Some (length l)
  | JDict d => Some (length d)
  | _ => None
  end.

(** [d.get(k)] *)
Fixpoint get (k : str) (d : object) : option json :=
  match d with
  | [] => None
  | (k', v) :: rest => if eqb k k' then Some v else get k rest
  end.

(** [d[k] = v]: an existing key keeps its place, a new key goes last. *)
Fixpoint set (k : str) (v : json) (d : object) : object :=
  match d with
  | [] => [(k, v)]
  | (k', v') :: rest =>
      if eqb k k' then (k', v) :: rest else (k', v') :: set k v rest
  end.

End Json.

Import Json(json, JNull, JBool, JInt, JFloat, JStr, JList, JDict).

(* ================================================================== *)
(** ** convert_rag_to_training.py *)

Module ConvertRag.

Definition templates (topic : string) (questions : list string)
  : str * list (str * option str) :=
  (py topic, map (fun q => (py q, None)) questions).

Definition keywords (topic : string) (kws : list string) : str * list str :=
  (py topic, map py kws).

Definition TOPIC_QA_TEMPLATES : list (str * list (str * option str)) :=
  [ templates "50/30/20"
      ["What is the 50/30/20 budgeting rule?";
       "How do I apply the 50/30/20 rule?";
       "How should I divide my salary using the 50/30/20 rule?";
       "Can you give an example of 50/30/20 budgeting?";
       "What percentage of my income should go to savings?"]%string;
    templates "savings"
      ["How can I start saving money?"; "What is 'pay yourself first'?";
       "How much should I save each month?"; "What is an emergency fund?";
       "How do I build an emergency fund?";
       "Why is saving important for young adults?";
       "How can I save money on a low salary?"]%string;
    templates "budget"
      ["How do I create a budget?"; "What are some budgeting tips?";
       "How can I track my expenses?"; "How do I stick to my budget?";
       "What are common budgeting mistakes?";
       "How can I budget on a RM2000 salary?"]%string;
    templates "debt"
      ["How can I avoid getting into debt?";
       "What should I know about credit cards?";
       "How do I pay off my debts?"; "What is the debt snowball method?";
       "Is BNPL (Buy Now Pay Later) a good idea?";
       "How do young Malaysians get into debt?"]%string;
    templates "investment"
      ["How does compound interest work?"; "When should I start investing?";
       "What are basic investment options in Malaysia?"; "What is EPF/KWSP?";
       "How can compound interest help me build wealth?"]%string;
    templates "retirement"
      ["How do I plan for retirement?";
       "What habits help with early retirement?";
       "How much do I need for retirement in Malaysia?";
       "What expenses should I expect after retirement?"]%string;
    templates "tax"
      ["How do I file income tax in Malaysia?";
       "What tax deductions can I claim?";
       "When is the tax filing deadline in Malaysia?";
       "What is LHDN and how do I use it?"]%string;
    templates "insurance"
      ["Why is medical insurance important?";
       "What types of insurance should I have?";
       "How do I choose the right insurance?";
       "What insurance do young adults need?"]%string;
    templates "car"
      ["Should I buy a new or used car?";
       "How do I budget for a car purchase?";
       "What should I know about car loans?";
       "Tips for buying my first car in Malaysia?"]%string;
    templates "house"
      ["Should I buy or rent a house in Malaysia?";
       "How do I save for a house down payment?";
       "What should first-time homebuyers know?";
       "What are the costs of owning a home?"]%string;
    templates "scam"
      ["How can I avoid financial scams?";
       "What are common online scams to watch for?";
       "How do I protect myself from fraud?"]%string;
    templates "first_salary"
      ["What should I do with my first salary?";
       "How should fresh graduates manage their money?";
       "What financial mistakes do young adults make?";
       "Tips for managing money in my 20s?"]%string;
    templates "mindset"
      ["How does mindset affect financial success?";
       "What is financial freedom?"; "How can I change my money mindset?"]%string;
    templates "gig_worker"
      ["How should gig workers manage their finances?";
       "What savings tips are there for freelancers?"]%string;
    templates "general"
      ["What financial advice do you have for Malaysian youth?";
       "How can I be better with money?";
       "What are the basics of personal finance?"]%string ].

Definition TOPIC_KEYWORDS : list (str * list str) :=
  [ keywords "50/30/20"
      ["50/30/20"; "50-30-20"; "50 30 20"; "budgeting rule"; "50% for needs";
       "30% for wants"; "20% for savings"]%string;
    keywords "savings"
      ["saving"; "emergency fund"; "savings account"; "pay yourself first";
       "save money"; "savings cushion"; "start saving"]%string;
    keywords "budget"
      ["budget"; "expense"; "spending"; "money management"; "track your";
       "financial plan"; "income allocation"]%string;
    keywords "debt"
      ["debt"; "credit card"; "loan"; "bnpl"; "buy now pay later";
       "repayment"; "borrow"; "owing money"]%string;
    keywords "investment"
      ["invest"; "compound interest"; "grow your money"; "returns";
       "portfolio"; "wealth building"]%string;
    keywords "retirement"
      ["retirement"; "retire"; "epf"; "kwsp"; "pension"; "after retirement"]%string;
    keywords "tax"
      ["tax"; "lhdn"; "income tax"; "tax relief"; "tax deduction"; "filing";
       "pcb"]%string;
    keywords "insurance"
      ["insurance"; "medical cover"; "protection"; "policy"; "coverage";
       "insured"]%string;
    keywords "car"
      ["car"; "vehicle"; "automobile"; "car loan"; "car financing";
       "first car"]%string;
    keywords "house"
      ["house"; "home"; "property"; "housing loan"; "buy vs rent";
       "homeowner"; "mortgage"]%string;
    keywords "scam"
      ["scam"; "fraud"; "phishing"; "trick"; "con"; "suspicious"; "deceive"]%string;
    keywords "first_salary"
      ["first salary"; "fresh graduate"; "first job"; "young adult";
       "starting work"; "first paycheck"]%string;
    keywords "mindset"
      ["mindset"; "financial freedom"; "wealth mindset"; "money mindset";
       "attitude"; "discipline"]%string;
    keywords "gig_worker"
      ["gig worker"; "freelancer"; "self-employed"; "gig economy";
       "side hustle"]%string ].

Inductive re_flag := DOTALL | IGNORECASE.

Record qa_pair := {
  prompt : str;
  completion : str;
  topic : str;
  source : str
}.

(** [c.isupper()] for one code point. *)
Definition isupper (c : char) : bool := negb (lower_char c =? c)%N.

Fixpoint table_get {A : Type} (key : str) (table : list (str * A)) : option A :=
  match table with
  | [] => None
  | (k, v) :: rest => if eqb key k then Some v else table_get key rest
  end.

(** [max(scores, key=scores.get)]: the first topic with the highest score. *)
Fixpoint best_topic (scores : list (str * nat)) (best : str) (high : nat) : str :=
  match scores with
  | [] => best
  | (t, n) :: rest =>
      if high <? n then best_topic rest t n else best_topic rest best high
  end.

Definition identify_topic (text : str) : str :=
  let text_lower := lower text in
  let scores :=
    filter (fun ts => 0 <? snd ts)
      (map (fun tk =>
              (fst tk,
               length (filter (fun kw => contains (lower kw) text_lower) (snd tk))))
           TOPIC_KEYWORDS) in
  match scores with
  | [] => py "general"
  | (t, n) :: rest => best_topic rest t n
  end.

Section Collaborators.

(** The regex engine and the random generator are taken as they are:
    [re.sub(pattern, repl, text, flags=...)], [re.split(pattern, text)] and
    [random.sample(population, k)]. *)
Variable re_sub : str -> list re_flag -> str -> str -> str.
Variable re_split : str -> str -> list str.
Variable random_sample : list (str * option str) -> nat -> list (str * option str).

Definition skip_patterns : list str :=
  map py ["Member Employer Corporate.*?(?=\n\n|\Z)";
          "Table of Contents.*?(?=\n\n|\Z)";
          "Related Reads.*?(?=\n\n|\Z)";
          "Terms & Conditions.*";
          "Privacy Policy.*";
          "Contact Us.*";
          "Disclaimer:.*";
          "HOUSING\n.*?(?=\n\n)";
          "ACCOUNT\n.*?(?=\n\n)";
          "PERSONAL\nFINANCE\n.*?(?=\n\n)";
          "EPF\n.*?(?=\n\n)";
          "EN\n.*?Myra Athena"]%string.

Definition clean_text (text : str) : str :=
  let text :=
    fold_left (fun text pattern => re_sub pattern [DOTALL; IGNORECASE] [] text)
              skip_patterns text in
  let text := re_sub (py "\n{3,}") [] (NL ++ NL) text in
  let text := re_sub (py " {2,}") [] (py " ") text in
  strip text.

Definition skip_words : list str :=
  map py ["Click here"; "Read also"; "Table of Contents"; "Terms &";
          "Member Employer"; "Related Reads"; "Date:"; "Myra Athena"]%string.

(** The test [sum(1 for c in s if c.isupper()) / max(len(s), 1) > 0.4] is
    written over the integers: the sentence has at most 400 code points, so
    the quotient is never within rounding distance of 0.4 without being
    equal to 2/5. *)
Definition mostly_upper (s : str) : bool :=
  2 * Nat.max (length s) 1 <? 5 * length (filter isupper s).

Definition extract_good_sentences (text : str) (min_length : nat) : list str :=
  let sentences := re_split (py "(?<=[.!?])\s+") text in
  filter (fun s =>
            negb (length s <? min_length)
            && negb (400 <? length s)
            && negb (existsb (fun x => contains x s) skip_words)
            && negb (mostly_upper s))
         (map strip sentences).

(** The result is [None] where the Python raises a [TypeError]. *)
Definition create_qa_pairs_from_chunk (chunk : Json.object) (filename : str)
  : option (list qa_pair) :=
  let text := match Json.get (py "text") chunk with
              | Some v => v
              | None => JStr []
              end in
  if negb (Json.truthy text) then Some [] else
  match Json.len text with
  | None => None
  | Some n =>
      if n <? 150 then Some [] else
      match text with
      | JStr text =>
          let text := clean_text text in
          if length text <? 100 then Some [] else
          let sentences := extract_good_sentences text 40 in
          if length sentences <? 2 then Some [] else
          let topic := identify_topic text in
          let templates :=
            match table_get topic TOPIC_QA_TEMPLATES with
            | Some ts => ts
            | None =>
                match table_get (py "general") TOPIC_QA_TEMPLATES with
                | Some ts => ts
                | None => []
                end
            end in
          let response_sentences := firstn 5 sentences in
          let response_text := join (py " ") response_sentences in
          if length response_text <? 80 then Some [] else
          let num_to_use := Nat.min 2 (length templates) in
          let selected := random_sample templates num_to_use in
          Some (map (fun qa =>
                       {| prompt := fst qa;
                          completion :=
                            match snd qa with
                            | Some (c :: cs) => c :: cs
                            | _ => response_text
                            end;
                          topic := topic;
                          source := filename |})
                    selected)
      | _ => None
      end
  end.

End Collaborators.

(** *** should_skip_file *)

Definition SKIP_FILES : list str :=
  [ py "Financial Fraud Prevention and Detection" ].

Definition should_skip_file (filename : str) : bool :=
  existsb (fun skip => contains (lower skip) (lower filename)) SKIP_FILES.

(** *** The removal of duplicates in process_all_chunks *)

(** [(pair["prompt"], pair["completion"][:100])] *)
Definition dedup_key (qa : qa_pair) : str * str :=
  (prompt qa, firstn 100 (completion qa)).

Definition key_eqb (a b : str * str) : bool :=
  eqb (fst a) (fst b) && eqb (snd a) (snd b).

(** The loop over [all_qa_pairs]; [seen] is the set of keys met so far. *)
Fixpoint unique_pairs_from (seen : list (str * str)) (pairs : list qa_pair)
  : list qa_pair :=
  match pairs with
  | [] => []
  | qa :: rest =>
      let key := dedup_key qa in
      if existsb (key_eqb key) seen
      then unique_pairs_from seen rest
      else qa :: unique_pairs_from (key :: seen) rest
  end.

Definition unique_pairs (all_qa_pairs : list qa_pair) : list qa_pair :=
  unique_pairs_from [] all_qa_pairs.

End ConvertRag.

(* ================================================================== *)
(** ** fix_chunks_metadata.py *)

Module FixChunks.

Record article := {
  title : str;
  url : str;
  company : str
}.

Definition entry (key t u c : string) : str * article :=
  (py key, {| title := py t; url := py u; company := py c |}).

Definition ARTICLE_URLS : list (str * article) :=
  [ entry "smart_budgeting_technique"
        "Smart Budgeting Technique"
        "https://www.kwsp.gov.my/w/infographic/smart-budgeting-technique"
        "KWSP Malaysia";
    entry "first_salary_tips"
        "First Salary Tips"
        "https://www.kwsp.gov.my/w/article/first-salary-tips"
        "KWSP Malaysia";
    entry "travelling_green_tips"
        "Travelling Green Tips"
        "https://www.kwsp.gov.my/w/article/travelling-green-tips"
        "KWSP Malaysia";
    entry "insurance_tips"
        "Insurance Tips"
        "https://www.kwsp.gov.my/w/infographic/insurance-tips"
        "KWSP Malaysia";
    entry "saving_tips_for_gig_worker"
        "Savings Tips for Gig Workers"
        "https://www.kwsp.gov.my/w/infographic/savings-tips-for-gig-workers"
        "KWSP Malaysia";
    entry "death_assistance"
        "EPF Death Assistance"
        "https://www.kwsp.gov.my/w/article/epf-death-assistance"
        "KWSP Malaysia";
    entry "multiple_savings_with_i_saraan"
        "Multiply Savings with i-Saraan"
        "https://www.kwsp.gov.my/w/infographic/multiply-savings-with-i-saraan"
        "KWSP Malaysia";
    entry "expense_after_retired"
        "Expenses After Retirement"
        "https://www.kwsp.gov.my/w/article/expenses-after-retired"
        "KWSP Malaysia";
    entry "fomo_shopping"
        "FOMO Shopping"
        "https://www.kwsp.gov.my/w/article/fomo-shopping"
        "KWSP Malaysia";
    entry "why_medical_insurance_importance"
        "Why Medical Insurance is Important"
        "https://www.kwsp.gov.my/w/article/why-medical-insurance-is-important"
        "KWSP Malaysia";
    entry "buy_vs_rent"
        "Buy vs Rent Malaysia"
        "https://www.kwsp.gov.my/w/article/buy-vs-rent-malaysia"
        "KWSP Malaysia";
    entry "fashion_on_a_budget"
        "Fashion on a Budget"
        "https://www.kwsp.gov.my/w/article/fashion-on-a-budget"
        "KWSP Malaysia";
    entry "budgeting_rule"
        "50-30-20 Rule"
        "https://www.kwsp.gov.my/w/article/50-30-20-rule"
        "KWSP Malaysia";
    entry "file_income_tax"
        "How to File Income Tax"
        "https://www.kwsp.gov.my/w/article/how-to-file-income-tax"
        "KWSP Malaysia";
    entry "compound_interest_benefits"
        "Compound Interest Benefits"
        "https://www.kwsp.gov.my/w/article/compound-interest-benefits"
        "KWSP Malaysia";
    entry "pay_yourself_first"
        "Pay Yourself First"
        "https://www.kwsp.gov.my/w/article/pay-yourself-first"
        "KWSP Malaysia";
    entry "new_year_financial_goals"
        "New Year Financial Goals"
        "https://www.kwsp.gov.my/w/article/new-year-financial-goals"
        "KWSP Malaysia";
    entry "master_your_finance"
        "Master Your Finance"
        "https://www.kwsp.gov.my/w/article/master-your-finance"
        "KWSP Malaysia";
    entry "quick_ways_to_losing_savings"
        "Quick Ways to Lose Savings"
        "https://www.kwsp.gov.my/w/article/quick-ways-to-lose-savings"
        "KWSP Malaysia";
    entry "surviving_on_paycheck"
        "Surviving on Paycheck"
        "https://www.kwsp.gov.my/w/article/surviving-on-paycheck"
        "KWSP Malaysia";
    entry "scam_red_flags"
        "Scam Red Flags"
        "https://www.kwsp.gov.my/w/article/scam-red-flags"
        "KWSP Malaysia";
    entry "vacation_on_budget"
        "Vacation on Budget"
        "https://www.kwsp.gov.my/w/article/vacation-on-budget"
        "KWSP Malaysia";
    entry "save_money_malaysian_ways"
        "Save Money Malaysian Ways"
        "https://www.kwsp.gov.my/w/article/save-money-malaysian-ways"
        "KWSP Malaysia";
    entry "financial_independence"
        "Financial Independence"
        "https://www.kwsp.gov.my/w/article/financial-independence"
        "KWSP Malaysia";
    entry "how_to_avoid_online_scam"
        "How to Avoid Online Scam"
        "https://www.kwsp.gov.my/w/article/how-to-avoid-online-scam"
        "KWSP Malaysia";
    entry "buy_first_think_later"
        "Buy First Think Later"
        "https://www.kwsp.gov.my/w/article/buy-first-think-later"
        "KWSP Malaysia";
    entry "income_and_your_savings"
        "Income and Your Savings"
        "https://www.kwsp.gov.my/w/article/income-and-your-savings"
        "KWSP Malaysia";
    entry "retirement_planning_tips"
        "Retirement Planning Tips"
        "https://www.kwsp.gov.my/w/article/retirement-planning-tips"
        "KWSP Malaysia";
    entry "savings_and_inflation"
        "Savings and Inflation"
        "https://www.kwsp.gov.my/w/article/savings-and-inflation"
        "KWSP Malaysia";
    entry "achieve_money_goals"
        "Achieve Money Goals"
        "https://www.kwsp.gov.my/w/article/achieve-money-goal"
        "KWSP Malaysia";
    entry "how_to_use_akaun_3"
        "How to Use Akaun 3"
        "https://www.kwsp.gov.my/w/article/how-to-use-akaun-3"
        "KWSP Malaysia";
    entry "saving_for_festives"
        "Savings for Festives"
        "https://www.kwsp.gov.my/w/article/savings-for-festives"
        "KWSP Malaysia";
    entry "shariah_retirement"
        "Simpanan Shariah Retirement"
        "https://www.kwsp.gov.my/w/article/simpanan-shariah-retirement"
        "KWSP Malaysia";
    entry "invest_smarter"
        "Invest Smarter"
        "https://www.kwsp.gov.my/w/article/invest-smarter"
        "KWSP Malaysia";
    entry "retirement_calculator"
        "Retirement Calculator"
        "https://www.kwsp.gov.my/w/article/retirement-calculator"
        "KWSP Malaysia";
    entry "ensuring_wife_future"
        "Ensuring Wife Future"
        "https://www.kwsp.gov.my/w/article/ensuring-wife-future"
        "KWSP Malaysia";
    entry "epf_house"
        "EPF Housing Withdrawal"
        "https://www.kwsp.gov.my/w/article/epf-housing-withdrawal"
        "KWSP Malaysia";
    entry "emergency_fund"
        "Emergency Fund"
        "https://www.kwsp.gov.my/w/article/emergency-fund"
        "KWSP Malaysia";
    entry "reward_yourself"
        "Reward Yourself"
        "https://www.kwsp.gov.my/w/article/reward-yourself"
        "KWSP Malaysia";
    entry "unwise_spending_habits"
        "Unwise Spending Habits"
        "https://www.kwsp.gov.my/w/article/unwise-spending-habits"
        "KWSP Malaysia";
    entry "boost_your_savings"
        "Boost Your Savings"
        "https://www.kwsp.gov.my/w/article/boost-your-savings"
        "KWSP Malaysia";
    entry "reasons_to_save_money"
        "Reasons to Save Money"
        "https://www.kwsp.gov.my/w/article/reasons-to-save-money"
        "KWSP Malaysia";
    entry "kwsp_gov_my_w_article_50_30_20_rule"
        "50-30-20 Rule"
        "https://www.kwsp.gov.my/w/article/50-30-20-rule"
        "KWSP Malaysia";
    entry "kwsp_gov_my_w_article_expenses_after_retired"
        "Expenses After Retirement"
        "https://www.kwsp.gov.my/w/article/expenses-after-retired"
        "KWSP Malaysia";
    entry "kwsp_gov_my_w_article_why_medical_insurance_is_important"
        "Why Medical Insurance is Important"
        "https://www.kwsp.gov.my/w/article/why-medical-insurance-is-important"
        "KWSP Malaysia";
    entry "kwsp_gov_my_w_infographic_savings_tips_for_gig_workers"
        "Savings Tips for Gig Workers"
        "https://www.kwsp.gov.my/w/infographic/savings-tips-for-gig-workers"
        "KWSP Malaysia";
    entry "educational_methodologies_of_personal_finance"
        "Educational Methodologies of Personal Finance"
        "https://www.financialeducatorscouncil.org/wp-content/uploads/Educational-Methodologies-of-Personal-Finance.pdf"
        "Educational Resource";
    entry "flcc_for_malaysian_adults_compressed"
        "Financial Literacy for Malaysian Adults"
        "https://www.fenetwork.my/wp-content/uploads/2023/02/Financial-Literacy-Core-Competencies-for-Malaysian-Adults.pdf"
        "Educational Resource";
    entry "framework_for_teaching_personal_finance"
        "Framework for Teaching Personal Finance"
        "https://www.financialeducatorscouncil.org/wp-content/uploads/Framework-for-Teaching-Personal-Finance.pdf"
        "Educational Resource";
    entry "learner_framework_standards_for_high_school_college_adults"
        "Learner Framework Standards for Financial Literacy"
        "https://www.financialeducatorscouncil.org/wp-content/uploads/DOC_PKG_EXC_-NFEC-Learner-Framework-Standards-for-High-School-College-Adults-_3.4.09.pdf"
        "Educational Resource";
    entry "nfec_report_policy_and_standards_framework_for_high_school_financial_literacy_education"
        "NFEC: Policy and Standards Framework for Financial Literacy"
        "https://www.financialeducatorscouncil.org/wp-content/uploads/nfec-report-policy-and-standards-framework-for-high-school-financial-literacy-education.pdf"
        "Educational Resource";
    entry "smart_technique_an_easy_way_to_achieve_financial_goals_kwsp_malaysia"
        "S.M.A.R.T Technique: Achieve Financial Goals"
        "https://www.kwsp.gov.my/en/w/infographic/smart-budgeting-technique"
        "KWSP Malaysia";
    ((py "5 mistakes young adult make with money " ++ [8212%N] ++ py " lalua rahsiad.jsonl"),
     Build_article
       (py "5 Mistakes Young Adults Make With Money")
       (py "https://www.laluarahsiad.com/blog-2/blog2")
       (py "Lalua Rahsiad"));
    ((py "what no one tells you about budgeting in your 20s " ++ [8212%N] ++ py " lalua rahsiad.jsonl"),
     Build_article
       (py "What No One Tells You About Budgeting in Your 20s")
       (py "https://www.laluarahsiad.com/blog-2/blog3")
       (py "Lalua Rahsiad"));
    ((py "why financial freedom starts with your mindset " ++ [8212%N] ++ py " lalua rahsiad.jsonl"),
     Build_article
       (py "Why Financial Freedom Starts with Your Mindset")
       (py "https://www.laluarahsiad.com/blog-2/blog1")
       (py "Lalua Rahsiad"));
    entry "how to celebrate deepavali without overspending - kwsp malaysia.jsonl"
        "Celebrate Deepavali Without Overspending"
        "https://www.kwsp.gov.my/en/w/article/celebrate-deepavali-without-overspending"
        "KWSP Malaysia";
    entry "article 4 (digital financial).jsonl"
        "Digital Financial Management"
        "https://www.akpk.org.my/sites/default/files/2024-12/ARTICLE%204%20%28DIGITAL%20FINANCIAL%29.pdf"
        "AKPK Malaysia";
    entry "article 6 (getting into debt).jsonl"
        "Getting Into Debt: What You Need to Know"
        "https://www.akpk.org.my/sites/default/files/2025-02/ARTICLE%206%20%28GETTING%20INTO%20DEBT%29.pdf"
        "AKPK Malaysia";
    entry "article 8 (breaking the chains).jsonl"
        "Breaking the Chains of Debt"
        "https://www.akpk.org.my/sites/default/files/2025-02/ARTICLE%208%20%28BREAKING%20THE%20CHAINS%29.pdf"
        "AKPK Malaysia";
    entry "s.m.a.r.t technique_ an easy way to achieve financial goals - kwsp malaysia.jsonl"
        "S.M.A.R.T Technique: Achieve Financial Goals"
        "https://www.kwsp.gov.my/en/w/infographic/smart-budgeting-technique"
        "KWSP Malaysia";
    entry "financial fraud prevention and detection_ governance and effective practices ( pdfdrive ).jsonl"
        "Financial Fraud Prevention and Detection"
        "https://www.wiley.com/en-us/Financial+Fraud+Prevention+and+Detection%3A+Governance+and+Effective+Practices-p-9781118617632"
        "Financial Resource";
    entry "www_kwsp.gov"
        "BNPL: Buy Now Pay Later"
        "https://www.kwsp.gov.my/w/article/buy-now-pay-later"
        "KWSP Malaysia";
    entry "buying_first_car"
        "Buying Your First Car"
        "https://www.kwsp.gov.my/w/article/buying-first-car"
        "KWSP Malaysia";
    entry "early_retirement_habits"
        "Early Retirement Habits"
        "https://www.kwsp.gov.my/w/article/early-retirement-habits"
        "KWSP Malaysia" ].

(** [re.sub(r'\s*\(\d+\)\s*$', '', name)]: the pattern can only match a
    parenthesised digit run that ends the name (trailing whitespace apart),
    and the leftmost match takes all the whitespace before it. *)
Definition drop_copy_number (name : str) : str :=
  match drop_while isspace (rev name) with
  | 41%N :: r =>
      match take_while isdigit r with
      | [] => name
      | ds =>
          match skipn (length ds) r with
          | 40%N :: before => rev (drop_while isspace before)
          | _ => name
          end
      end
  | _ => name
  end.

Definition normalize_filename (filename : str) : str :=
  let name := strip (replace (py ".jsonl") [] (lower filename)) in
  let name := drop_copy_number name in
  let name := replace (py "-") (py "_") (replace (py " ") (py "_") name) in
  if startswith (py "www") name
  then
    if existsb (eqb name) [py "www_kwsp"; py "www_kwsp_gov"]
    then name
    else replace (py "www.") [] (replace (py "www_") [] name)
  else name.

Fixpoint table_get (key : str) (table : list (str * article)) : option article :=
  match table with
  | [] => None
  | (k, info) :: rest => if eqb key k then Some info else table_get key rest
  end.

Definition find_article_info (filename : str) : option article :=
  let normalized := normalize_filename filename in
  match table_get normalized ARTICLE_URLS with
  | Some info => Some info
  | None =>
      match table_get (lower filename) ARTICLE_URLS with
      | Some info => Some info
      | None =>
          let normalized_hyphen := replace (py "_") (py "-") normalized in
          match
            find (fun kv =>
                    let key := fst kv in
                    let key_hyphen := replace (py "_") (py "-") key in
                    contains key normalized || contains normalized key
                    || contains key_hyphen normalized_hyphen
                    || contains normalized_hyphen key_hyphen)
                 ARTICLE_URLS
          with
          | Some (_, value) => Some value
          | None => None
          end
      end
  end.

(** A line of a chunk file as the loop sees it: blank after [strip], text
    that [json.loads] rejects, or text that it parses.  The file that the
    pass writes holds one [json.dumps] line per chunk, read back by
    [json.loads] as the same value. *)
Inductive line :=
| Blank
| Malformed
| Parsed (v : json).

(** The body of the loop for one parsed line; [None] where it raises. *)
Definition update_chunk (filename : str) (article_info : article) (chunk : json)
  : option json :=
  match chunk with
  | JDict items =>
      let items :=
        match Json.get (py "metadata") items with
        | None => Json.set (py "metadata") (JDict []) items
        | Some _ => items
        end in
      match Json.get (py "metadata") items with
      | Some (JDict metadata) =>
          let metadata := Json.set (py "source") (JStr filename) metadata in
          let metadata := Json.set (py "title") (JStr (title article_info)) metadata in
          let metadata := Json.set (py "url") (JStr (url article_info)) metadata in
          let metadata := Json.set (py "from") (JStr (company article_info)) metadata in
          Some (JDict (Json.set (py "metadata") (JDict metadata) items))
      | _ => None
      end
  | _ => None
  end.

(** The loop over the lines; [None] when a line makes it raise. *)
Fixpoint update_lines (filename : str) (article_info : article)
    (lines : list line) : option (list json) :=
  match lines with
  | [] => Some []
  | Blank :: rest => update_lines filename article_info rest
  | Malformed :: _ => None
  | Parsed chunk :: rest =>
      match update_chunk filename article_info chunk with
      | None => None
      | Some chunk' =>
          match update_lines filename article_info rest with
          | None => None
          | Some rest' => Some (chunk' :: rest')
          end
      end
  end.

Section Paths.

(** [Path(filepath).name] *)
Variable path_name : str -> str.

(** The returned flag and the content of the file afterwards. *)
Definition update_chunk_file (filepath : str) (file : list line)
  : bool * list line :=
  let filename := path_name filepath in
  match find_article_info filename with
  | None => (false, file)
  | Some article_info =>
      match update_lines filename article_info file with
      | Some lines => (true, map Parsed lines)
      | None => (false, file)
      end
  end.

End Paths.

End FixChunks.

(* ================================================================== *)
(** ** Reference notions and inputs used in the properties *)

Module Ref.

(** [sub] occurs in [s]. *)
Definition substring (sub s : str) : Prop :=
  exists pre post, s = pre ++ sub ++ post.

(** Total length of a list of texts. *)
Definition total_length (parts : list str) : nat :=
  list_sum (map (@length char) parts).





(** A document holding 750 times the code point [c]. *)
Definition doc750 (c : char) : doc := Document (Text (repeat c 750)) Absent None.

(** A retriever whose [invoke] returns two documents of 750 code points. *)
Definition two_docs : retriever :=
  fun method =>
    if eqb method (py "invoke")
    then Some (fun _ => Returns (Some [doc750 97%N; doc750 98%N]))
    else None.

(** A retriever without any of the methods. *)
Definition no_methods : retriever := fun _ => None.

(** A retriever whose methods all raise, but for [retrieve], which is
    missing. *)
Definition all_raise : retriever :=
  fun method =>
    if eqb method (py "retrieve") then None else Some (fun _ => Raises).

(** A method that gives no documents: missing, or raising when called. *)
Definition method_fails (db : retriever) (expanded_query method : str) : Prop :=
  db method = None
  \/ exists call, db method = Some call /\ call expanded_query = Raises.

(** A chunk metadata that names its file under [source]. *)
Definition budgeting_metadata : dict :=
  [ (py "source", PStr (py "budgeting_rule.jsonl")); (py "page", PInt 3) ].

(** A chunk whose text is too short to be used. *)
Definition short_chunk : Json.object :=
  [ (py "text", JStr (py "Save first, spend later."));
    (py "metadata", JDict [(py "page", JInt 1)]) ].

(** The texts of the documents that have one, in retrieval order. *)
Definition contents (docs : list doc) : list str :=
  flat_map (fun d => match doc_content d with
                     | Some (c :: cs) => [c :: cs]
                     | _ => []
                     end) docs.

(** A retriever whose first method returns two short documents, the second
    of them a plain dict. *)
Definition short_docs : retriever :=
  fun method =>
    if eqb method (py "get_relevant_documents")
    then Some (fun _ =>
                 Returns (Some [ Document (Text (py "Save early.")) Absent None;
                                 DictDoc (Text (py "Spend less.")) ]))
    else None.

(** [None] or a text: what a metadata value is when it is not a number. *)
Definition text_or_none (v : pyval) : bool :=
  match v with
  | PInt _ => false
  | _ => true
  end.

(** The number of keywords of a topic that occur in a text. *)
Definition topic_score (text : str) (tk : str * list str) : nat :=
  length (filter (fun kw => contains (lower kw) (lower text)) (snd tk)).

(** Stand-ins for the regex engine and the random generator: a substitution
    that changes nothing, a split that cuts at a bar, and a sample that
    takes the first elements. *)
Definition sub_nothing (pattern : str) (flags : list ConvertRag.re_flag)
    (repl text : str) : str := text.

Fixpoint split_at_bar (cur text : str) : list str :=
  match text with
  | [] => [rev cur]
  | c :: t =>
      if (c =? 124)%N then rev cur :: split_at_bar [] t
      else split_at_bar (c :: cur) t
  end.

Definition split_bars (pattern text : str) : list str := split_at_bar [] text.

Definition sample_first (population : list (str * option str)) (k : nat)
  : list (str * option str) := firstn k population.

(** A chunk with three sentences on saving, and a chunk without text. *)
Definition saving_chunk : Json.object :=
  [ (py "text",
     JStr (py "Pay yourself first by moving a part of every salary into a savings account.|" ++
           py "An emergency fund should cover three to six months of your living expenses.|" ++
           py "Start saving with small amounts and raise them as your income grows.")) ].

Definition textless_chunk : Json.object :=
  [ (py "metadata", JDict [(py "page", JInt 2)]) ].

Definition numeric_chunk : Json.object := [ (py "text", JInt 42) ].


(** The four metadata keys that the fixing pass sets. *)
Definition fixed_keys : list str :=
  [ py "source"; py "title"; py "url"; py "from" ].

(** The metadata of a chunk before the pass: an absent one counts as
    empty. *)
Definition metadata_of (items : Json.object) : Json.object :=
  match Json.get (py "metadata") items with
  | Some (JDict md) => md
  | _ => []
  end.

(** A chunk file of three lines: a chunk with metadata, a blank line, and
    a chunk without metadata. *)
Definition sample_file : list FixChunks.line :=
  [ FixChunks.Parsed
      (JDict [ (py "text", JStr (py "Split your pay in three parts."));
               (py "metadata", JDict [ (py "title", JStr (py "untitled"));
                                       (py "page", JInt 1) ]) ]);
    FixChunks.Blank;
    FixChunks.Parsed (JDict [ (py "text", JStr (py "Needs, wants, savings.")) ]) ].

End Ref.

Import Ref.

(* ================================================================== *)
(** * Properties *)

(** ** Facts on strings *)

Lemma eqb_refl (s : str) : eqb s s = true.
Proof.
  induction s as [|c s IH]; simpl; [reflexivity|].
  now rewrite N.eqb_refl.
Qed.

Lemma eqb_eq (a b : str) : eqb a b = true <-> a = b.
Proof.
  split.
  - revert b; induction a as [|x a IH]; intros [|y b] H; simpl in H;
      try discriminate; [reflexivity|].
    apply andb_true_iff in H as [Hxy Hab].
    apply N.eqb_eq in Hxy. now rewrite Hxy, (IH b Hab).
  - intros ->. apply eqb_refl.
Qed.

Lemma startswith_spec (p s : str) :
  startswith p s = true <-> exists rest, s = p ++ rest.
Proof.
  revert s; induction p as [|x p IH]; intros s; simpl.
  - split; [intros _; now exists s | reflexivity].
  - destruct s as [|y s].
    + split; [discriminate | intros [r Hr]; discriminate].
    + rewrite andb_true_iff, N.eqb_eq, IH. split.
      * intros [-> [r ->]]. now exists r.
      * intros [r Hr]. injection Hr as -> ->. split; [reflexivity | now exists r].
Qed.

Lemma contains_spec (sub s : str) : contains sub s = true <-> substring sub s.
Proof.
  unfold substring. induction s as [|c s IH].
  - simpl. rewrite orb_false_r, startswith_spec. split.
    + intros [r Hr]. now exists [], r.
    + intros [pre [post H]]. destruct pre; [now exists post|discriminate].
  - cbn [contains]. rewrite orb_true_iff, startswith_spec, IH. split.
    + intros [[r Hr] | [pre [post H]]].
      * now exists [], r.
      * exists (c :: pre), post. simpl. now rewrite H.
    + intros [[|x pre] [post H]].
      * left. now exists post.
      * right. injection H as _ H. now exists pre, post.
Qed.

Lemma contains_middle (a sub b : str) : contains sub (a ++ sub ++ b) = true.
Proof. apply contains_spec. now exists a, b. Qed.

Lemma length_join (sep : str) (parts : list str) :
  length (join sep parts)
  = total_length parts + length sep * Nat.pred (length parts).
Proof.
  unfold total_length. induction parts as [|p [|q rest] IH].
  - simpl. lia.
  - simpl. lia.
  - change (join sep (p :: q :: rest)) with (p ++ sep ++ join sep (q :: rest)).
    rewrite !length_app, IH.
    change (list_sum (map (@length char) (p :: q :: rest)))
      with (length p + list_sum (map (@length char) (q :: rest))).
    cbn [length Nat.pred].
    rewrite (Nat.mul_succ_r (length sep)). lia.
Qed.

Lemma find_spec {A : Type} (f : A -> bool) (l : list A) (x : A) :
  find f l = Some x <->
  exists pre post, l = pre ++ x :: post /\ f x = true
                   /\ forall y, In y pre -> f y = false.
Proof.
  induction l as [|a l IH]; simpl.
  - split; [discriminate|]. intros [pre [post [H _]]]. destruct pre; discriminate.
  - destruct (f a) eqn:Ha.
    + split.
      * intros [= ->]. exists [], l. repeat split; [assumption | intros y []].
      * intros [[|b pre] [post [H [Hx Hpre]]]].
        -- now injection H as ->.
        -- injection H as -> _. rewrite (Hpre b (or_introl eq_refl)) in Ha.
           discriminate.
    + rewrite IH. split.
      * intros [pre [post [-> [Hx Hpre]]]]. exists (a :: pre), post.
        repeat split; [assumption|]. intros y [<- | Hy]; auto.
      * intros [[|b pre] [post [H [Hx Hpre]]]].
        -- injection H as ->. congruence.
        -- injection H as _ ->. exists pre, post. repeat split; auto.
           intros y Hy. apply Hpre. now right.
Qed.

Lemma find_none {A : Type} (f : A -> bool) (l : list A) :
  find f l = None <-> forall y, In y l -> f y = false.
Proof.
  induction l as [|a l IH]; simpl.
  - split; [intros _ y [] | reflexivity].
  - destruct (f a) eqn:Ha.
    + split; [discriminate|]. intros H. rewrite (H a (or_introl eq_refl)) in Ha.
      discriminate.
    + rewrite IH. split.
      * intros H y [<- | Hy]; auto.
      * intros H y Hy. apply H. now right.
Qed.

Lemma contains_head (sub rest : str) : contains sub (sub ++ rest) = true.
Proof. apply (contains_middle [] sub rest). Qed.

Lemma contains_skip (a sub s : str) :
  contains sub s = true -> contains sub (a ++ s) = true.
Proof.
  rewrite !contains_spec. intros [pre [post ->]].
  exists (a ++ pre), post. now rewrite <- app_assoc.
Qed.

Ltac find_in_concat :=
  repeat first [ apply contains_head | apply contains_skip ].

(** ** Context assembly *)

Lemma context_loop_budget (docs : list doc) (total_chars : nat) :
  total_chars <= max_chars ->
  total_chars + total_length (context_loop docs total_chars) <= max_chars.
Proof.
  revert total_chars.
  induction docs as [|d rest IH]; intros total_chars Htotal.
  - unfold total_length; simpl; lia.
  - cbn [context_loop].
    destruct (doc_content d) as [[|c cs]|]; try (now apply IH).
    destruct (Nat.leb_spec (total_chars + length (c :: cs)) max_chars) as [Hfit|Hover].
    + specialize (IH _ Hfit). unfold total_length in *.
      change (list_sum (map (@length char) ((c :: cs) :: ?l)))
        with (length (c :: cs) + list_sum (map (@length char) l)).
      lia.
    + destruct (Nat.ltb_spec 200 (max_chars - total_chars)) as [Hroom|Hnone].
      * unfold total_length.
        change (list_sum (map (@length char) [?x])) with (length x + 0).
        rewrite length_firstn. lia.
      * unfold total_length; simpl; lia.
Qed.

(** C1, as stated, fails: with two retrieved documents of 750 code points
    each, both fit the budget of [max_chars] and the separator between them
    brings the assembled context to 1502 code points. *)
Lemma rag_context_over_max_chars :
  ~ (forall query db, length (rag_context query db) <= max_chars).
Proof.
  intros H. specialize (H (py "hello") two_docs).
  assert (Hlen : length (rag_context (py "hello") two_docs) = 1502)
    by (vm_compute; reflexivity).
  rewrite Hlen in H. unfold max_chars in H. lia.
Qed.

(** C1, amended: for every query and every retriever, the chunk texts
    included in the context total at most [max_chars] code points, and the
    assembled context is that total plus two code points of separator
    between consecutive included chunks. *)
Theorem rag_context_budget (query : str) (db : retriever) :
  let parts := context_parts (rag_docs query db) in
  total_length parts <= max_chars
  /\ length (rag_context query db)
     = total_length parts + 2 * Nat.pred (length parts).
Proof.
  intros parts. split.
  - apply (context_loop_budget (rag_docs query db) 0). lia.
  - unfold rag_context. fold parts. now rewrite length_join.
Qed.

(** ** Keyword expansion *)

(** C2, as stated, fails: the expansion of the query on saving does not
    contain the words on an emergency fund. *)
Lemma rewrite_query_save_without_emergency_fund :
  contains (py "emergency fund") (rewrite_query (py "How can I save money?"))
  = false.
Proof. vm_compute. reflexivity. Qed.

(** C2, amended: expanding "How can I save money?" appends, after a space,
    the expansion configured for the trigger "save", which is
    "saving tips money management"; the result contains "saving tips". *)
Theorem rewrite_query_save :
  let query := py "How can I save money?" in
  find (fun kv => eqb (fst kv) (py "save")) financial_keywords
  = Some (py "save", py "saving tips money management")
  /\ rewrite_query query = query ++ py " " ++ py "saving tips money management"
  /\ contains (py "saving tips") (rewrite_query query) = true.
Proof. vm_compute. repeat split. Qed.

(** ** The count instruction of the Strict prompt *)




(** ** The word-number path of the intent detector *)






(** ** Sources in Model-only mode *)

(** C5: in Model-only mode the source list that [run_rag_chain] returns is
    empty, for every query, retriever and model. *)
Theorem model_only_sources_empty {Stream : Type} (query : str) (db : retriever)
    (llm : str -> Stream) :
  snd (run_rag_chain query db llm (py "Model-only")) = [].
Proof.
  unfold run_rag_chain, rag_sources. cbn [snd].
  assert (Hstrict : eqb (py "Model-only") (py "Strict") = false)
    by (vm_compute; reflexivity).
  assert (Hhybrid : eqb (py "Model-only") (py "Hybrid") = false)
    by (vm_compute; reflexivity).
  now rewrite Hstrict, Hhybrid.
Qed.

(** In Strict mode the two documents of [two_docs] are both listed. *)
Example strict_sources_two_docs :
  length (snd (run_rag_chain (py "How do I budget?") two_docs (fun p => p)
                 (py "Strict"))) = 2.
Proof. vm_compute. reflexivity. Qed.

(** ** Retrieval failures *)

Lemma fetch_docs_all_fail (db : retriever) (expanded_query : str)
    (methods : list str) :
  (forall method, In method methods -> method_fails db expanded_query method) ->
  fetch_docs db methods expanded_query = Some [].
Proof.
  induction methods as [|m rest IH]; intros Hfail; [reflexivity|].
  cbn [fetch_docs].
  destruct (Hfail m (or_introl eq_refl)) as [Hnone | [call [Hsome Hraise]]].
  - rewrite Hnone. apply IH. intros m' Hm'. apply Hfail. now right.
  - rewrite Hsome, Hraise. apply IH. intros m' Hm'. apply Hfail. now right.
Qed.

(** C6: when each of the document-fetch methods is missing from the
    retriever or raises, [run_rag_chain] goes on with no documents: the
    context is the empty string and the returned source list is empty, in
    every mode. *)
Theorem retrieval_failure_gives_empty {Stream : Type} (query : str)
    (db : retriever) (llm : str -> Stream) (rag_mode : str) :
  (forall method, In method fetch_methods ->
                  method_fails db (rewrite_query query) method) ->
  rag_context query db = []
  /\ snd (run_rag_chain query db llm rag_mode) = [].
Proof.
  intros Hfail.
  assert (Hdocs : rag_docs query db = []).
  { unfold rag_docs. now rewrite (fetch_docs_all_fail _ _ _ Hfail). }
  split.
  - unfold rag_context. now rewrite Hdocs.
  - unfold run_rag_chain, rag_sources. cbn [snd]. rewrite Hdocs.
    now destruct (eqb rag_mode (py "Strict") || eqb rag_mode (py "Hybrid")).
Qed.

Lemma retrieval_failure_gives_empty_witness :
  rag_context (py "How do I budget?") all_raise = []
  /\ snd (run_rag_chain (py "How do I budget?") all_raise (fun p => p) (py "Strict"))
     = [].
Proof.
  apply retrieval_failure_gives_empty.
  intros method Hin. unfold fetch_methods in Hin. simpl in Hin.
  repeat (destruct Hin as [<- | Hin]);
    [ right; eexists; split; vm_compute; reflexivity
    | right; eexists; split; vm_compute; reflexivity
    | left; vm_compute; reflexivity
    | right; eexists; split; vm_compute; reflexivity
    | right; eexists; split; vm_compute; reflexivity
    | destruct Hin ].
Defined.

(** ** Source formatting *)

(** C7: a chunk whose metadata has ["source"] set to "budgeting_rule.jsonl",
    and neither ["source_file"] nor ["title"], is shown with the title
    "50-30-20 Rule" and its KWSP address: the normalized name
    "budgeting_rule" is a key of [ARTICLE_URLS]. *)
Theorem budgeting_rule_source (basename : str -> str) (metadata : dict) :
  dict_get (py "source") metadata = Some (PStr (py "budgeting_rule.jsonl")) ->
  dict_get (py "source_file") metadata = None ->
  dict_get (py "title") metadata = None ->
  normalize_key (py "budgeting_rule.jsonl") = py "budgeting_rule"
  /\ table_get (py "budgeting_rule") ARTICLE_URLS
     = Some {| title := py "50-30-20 Rule";
               url := py "https://www.kwsp.gov.my/w/article/50-30-20-rule" |}
  /\ get_article_info basename (PStr (py "budgeting_rule.jsonl")) metadata
     = Some (PStr (py "50-30-20 Rule"),
             py "https://www.kwsp.gov.my/w/article/50-30-20-rule")
  /\ show_source basename metadata
     = Some {| view_title := PStr (py "50-30-20 Rule");
               view_url := py "https://www.kwsp.gov.my/w/article/50-30-20-rule";
               from_source := PStr (py "KWSP Malaysia") |}.
Proof.
  intros Hsource Hfile Htitle.
  split; [vm_compute; reflexivity|].
  split; [vm_compute; reflexivity|].
  split.
  - unfold get_article_info, get_default. rewrite Hfile, Htitle.
    vm_compute. reflexivity.
  - unfold show_source, get_article_info, get_default.
    rewrite Hfile, Htitle, Hsource. vm_compute. reflexivity.
Qed.

Lemma budgeting_rule_source_witness :
  show_source (fun path => path) budgeting_metadata
  = Some {| view_title := PStr (py "50-30-20 Rule");
            view_url := py "https://www.kwsp.gov.my/w/article/50-30-20-rule";
            from_source := PStr (py "KWSP Malaysia") |}.
Proof.
  apply (budgeting_rule_source (fun path => path) budgeting_metadata);
    vm_compute; reflexivity.
Defined.

(** ** Q&A pairs *)

(** C8: a chunk whose text has fewer than 150 code points gives no Q&A
    pair, whatever the regex engine and the random generator do. *)
Theorem short_chunk_gives_no_pairs
    (re_sub : str -> list ConvertRag.re_flag -> str -> str -> str)
    (re_split : str -> str -> list str)
    (random_sample : list (str * option str) -> nat -> list (str * option str))
    (chunk : Json.object) (filename text : str) :
  Json.get (py "text") chunk = Some (JStr text) ->
  length text < 150 ->
  ConvertRag.create_qa_pairs_from_chunk re_sub re_split random_sample
    chunk filename = Some [].
Proof.
  intros Htext Hshort.
  unfold ConvertRag.create_qa_pairs_from_chunk. rewrite Htext.
  destruct text as [|c text]; [reflexivity|].
  cbn [Json.truthy Json.len negb length Nat.eqb].
  destruct (Nat.ltb_spec (S (length text)) 150) as [_|Hlong].
  - reflexivity.
  - cbn [length] in Hshort. lia.
Qed.

Lemma short_chunk_gives_no_pairs_witness :
  ConvertRag.create_qa_pairs_from_chunk
    (fun _ _ _ text => text) (fun _ text => [text]) (fun l k => firstn k l)
    short_chunk (py "first_salary_tips.jsonl") = Some [].
Proof.
  apply (short_chunk_gives_no_pairs _ _ _ short_chunk _
           (py "Save first, spend later.")).
  - vm_compute. reflexivity.
  - vm_compute. lia.
Defined.

(** ** The metadata-fixing pass *)

Lemma get_set_same (k : str) (v : json) (d : Json.object) :
  Json.get k (Json.set k v d) = Some v.
Proof.
  induction d as [|[k' v'] rest IH]; cbn [Json.set Json.get].
  - now rewrite eqb_refl.
  - destruct (eqb k k') eqn:Hk; cbn [Json.get]; now rewrite Hk.
Qed.

Lemma get_set_other (k k' : str) (v : json) (d : Json.object) :
  eqb k k' = false ->
  Json.get k (Json.set k' v d) = Json.get k d.
Proof.
  intros Hdiff. induction d as [|[k0 v0] rest IH]; cbn [Json.set Json.get].
  - now rewrite Hdiff.
  - destruct (eqb k' k0) eqn:Hk'; cbn [Json.get].
    + apply eqb_eq in Hk'. subst k0. now rewrite Hdiff.
    + destruct (eqb k k0); [reflexivity | exact IH].
Qed.




(** The pass on [sample_file], named "budgeting_rule.jsonl": the blank line
    goes, the first chunk keeps its keys in place with the title replaced,
    the second gets a metadata of its own. *)
Example update_sample_file :
  FixChunks.update_chunk_file (fun path => path) (py "budgeting_rule.jsonl")
    sample_file
  = (true,
     [ FixChunks.Parsed
         (JDict [ (py "text", JStr (py "Split your pay in three parts."));
                  (py "metadata",
                   JDict [ (py "title", JStr (py "50-30-20 Rule"));
                           (py "page", JInt 1);
                           (py "source", JStr (py "budgeting_rule.jsonl"));
                           (py "url", JStr (py "https://www.kwsp.gov.my/w/article/50-30-20-rule"));
                           (py "from", JStr (py "KWSP Malaysia")) ]) ]);
       FixChunks.Parsed
         (JDict [ (py "text", JStr (py "Needs, wants, savings."));
                  (py "metadata",
                   JDict [ (py "source", JStr (py "budgeting_rule.jsonl"));
                           (py "title", JStr (py "50-30-20 Rule"));
                           (py "url", JStr (py "https://www.kwsp.gov.my/w/article/50-30-20-rule"));
                           (py "from", JStr (py "KWSP Malaysia")) ]) ]) ]).
Proof. vm_compute. reflexivity. Qed.


(** ** Greetings *)

(** C10: a non-empty input that, once trimmed and lowercased, is one of the
    greetings, or has at most two words and starts with a greeting, is
    classified as a greeting and answered with the fixed greeting, with no
    sources and without any call of [run_rag_chain]; "high fees" is such
    an input, through the prefix "hi"; the empty string is no greeting. *)
Theorem greeting_shortcut :
  (forall text,
      text <> [] ->
      (In (lower (strip text)) greetings
       \/ (length (split (lower (strip text))) <= 2
           /\ exists g rest,
                In g greetings /\ lower (strip text) = g ++ rest)) ->
      is_greeting text = true
      /\ forall (Stream : Type) (db : retriever) (llm : str -> Stream)
                (rag_mode : str),
           chat_turn text db llm rag_mode
           = {| turn_reply := Shortcut greeting_response;
                turn_sources := [];
                rag_calls := [] |})
  /\ is_greeting (py "high fees") = true
  /\ is_greeting [] = false.
Proof.
  split; [|split; vm_compute; reflexivity].
  intros text Hnonempty Hshape.
  assert (Hgreet : is_greeting text = true).
  { unfold is_greeting. destruct text as [|c text]; [contradiction|].
    set (t := lower (strip (c :: text))) in *.
    apply orb_true_iff. destruct Hshape as [Hin | [Hwords [g [rest [Hin Hpre]]]]].
    - left. apply existsb_exists. exists t. split; [exact Hin | apply eqb_refl].
    - right. apply andb_true_iff. split.
      + apply Nat.leb_le. exact Hwords.
      + apply existsb_exists. exists g. split; [exact Hin|].
        apply startswith_spec. now exists rest. }
  split; [exact Hgreet|].
  intros Stream db llm rag_mode. unfold chat_turn. now rewrite Hgreet.
Qed.

Lemma greeting_shortcut_witness :
  is_greeting (py "high fees") = true
  /\ forall (db : retriever) (llm : str -> str) (rag_mode : str),
       chat_turn (py "high fees") db llm rag_mode
       = {| turn_reply := Shortcut greeting_response;
            turn_sources := [];
            rag_calls := [] |}.
Proof.
  destruct (proj1 greeting_shortcut (py "high fees")) as [Hgreet Hturn].
  - vm_compute. discriminate.
  - right. split.
    + vm_compute. lia.
    + exists (py "hi"), (py "gh fees"). split.
      * vm_compute. left. reflexivity.
      * vm_compute. reflexivity.
  - split; [exact Hgreet | exact (Hturn str)].
Defined.

(* ================================================================== *)
(** * Further properties of the code *)

(** ** Keyword expansion *)

(** The expanded query starts with the query as given, and is the query
    itself exactly when none of the trigger keywords occurs in the
    lowercased query. *)
Theorem rewrite_query_extends (query : str) :
  (exists suffix, rewrite_query query = query ++ suffix)
  /\ (rewrite_query query = query <->
      forall kv, In kv financial_keywords ->
                 ~ substring (fst kv) (lower query)).
Proof.
  unfold rewrite_query.
  destruct (find (fun kv => contains (fst kv) (lower query)) financial_keywords)
    as [[keyword expansion]|] eqn:Hfind.
  - split; [now exists (py " " ++ expansion)|].
    split.
    + intros Heq. exfalso.
      rewrite <- (app_nil_r query) in Heq at 2.
      apply app_inv_head in Heq. discriminate Heq.
    + intros Hnone. exfalso.
      apply find_spec in Hfind as [pre [post [Hl [Hhit _]]]].
      apply (Hnone (keyword, expansion)).
      * rewrite Hl. apply in_or_app. right. now left.
      * apply contains_spec. exact Hhit.
  - split; [exists []; now rewrite app_nil_r|].
    split; [|reflexivity].
    intros _ kv Hin Hsub. apply contains_spec in Hsub.
    rewrite find_none in Hfind. specialize (Hfind kv Hin). simpl in Hfind.
    congruence.
Qed.

(** ** Intent detection *)

Lemma take_while_all (f : char -> bool) (s : str) :
  forall c, In c (take_while f s) -> f c = true.
Proof.
  induction s as [|x s IH]; simpl; [intros c []|].
  destruct (f x) eqn:Hx; [|intros c []].
  intros c [<- | Hc]; auto.
Qed.

Lemma int_of_digits_acc (ds : str) (acc : Z) :
  (forall c, In c ds -> isdigit c = true) ->
  (0 <= acc)%Z ->
  (0 <= fold_left (fun acc c => (10 * acc + (Z.of_N c - 48))%Z) ds acc)%Z.
Proof.
  revert acc. induction ds as [|d ds IH]; intros acc Hds Hacc; cbn [fold_left].
  - exact Hacc.
  - apply IH.
    + intros c Hc. apply Hds. now right.
    + specialize (Hds d (or_introl eq_refl)).
      unfold isdigit, between in Hds.
      apply andb_true_iff in Hds as [Hlo Hhi].
      apply N.leb_le in Hlo. apply N2Z.inj_le in Hlo.
      change (Z.of_N 48) with 48%Z in Hlo. lia.
Qed.

Lemma search_count_nonneg (s : str) (n : Z) :
  search_count s = Some n -> (0 <= n)%Z.
Proof.
  induction s as [|c s IH]; cbn [search_count]; unfold match_count_at.
  - simpl. discriminate.
  - destruct (take_while isdigit (c :: s)) as [|d ds] eqn:Hds.
    + exact IH.
    + destruct (existsb _ count_nouns).
      * intros [= <-]. apply int_of_digits_acc; [|lia].
        rewrite <- Hds. apply take_while_all.
      * exact IH.
Qed.

(** The detected intent is well formed: a list type is one of the six
    categories, a count is never negative, and a count found without a
    digit pattern lies between 1 and 10. *)
Theorem detected_intent_well_formed (query : str) :
  (forall lt, list_type (detect_query_intent query) = Some lt ->
              In lt (map py ["mistakes"; "tips"; "ways"; "steps"; "reasons";
                             "habits"]%string))
  /\ (forall n, count (detect_query_intent query) = Some n -> (0 <= n)%Z)
  /\ (forall n, search_count (lower query) = None ->
                count (detect_query_intent query) = Some n ->
                (1 <= n <= 10)%Z).
Proof.
  assert (Hwords : forall wn, In wn word_nums -> (1 <= snd wn <= 10)%Z).
  { intros wn Hin. unfold word_nums in Hin. simpl in Hin.
    repeat (destruct Hin as [<- | Hin]); simpl; first [lia | contradiction]. }
  assert (Hword_count : forall s n, word_count s = Some n -> (1 <= n <= 10)%Z).
  { intros s n. unfold word_count.
    destruct (find _ word_nums) as [[w num]|] eqn:Hfind; [|discriminate].
    intros [= <-]. apply find_spec in Hfind as [pre [post [Hl _]]].
    apply (Hwords (w, num)). rewrite Hl. apply in_or_app. right. now left. }
  unfold detect_query_intent. cbn [list_type count]. split; [|split].
  - intros lt.
    destruct (find _ list_patterns) as [[name patterns]|] eqn:Hfind;
      [|discriminate].
    intros [= <-]. apply find_spec in Hfind as [pre [post [Hl _]]].
    assert (Hin : In (name, patterns) list_patterns).
    { rewrite Hl. apply in_or_app. right. now left. }
    apply (in_map fst) in Hin. exact Hin.
  - intros n. destruct (search_count (lower query)) as [m|] eqn:Hsearch.
    + intros [= <-]. now apply (search_count_nonneg (lower query)).
    + intros Hn. apply Hword_count in Hn. lia.
  - intros n Hnone Hn. rewrite Hnone in Hn. now apply Hword_count in Hn.
Qed.

Lemma detected_intent_well_formed_witness :
  search_count (lower (py "three tips for saving")) = None
  /\ (1 <= 3 <= 10)%Z.
Proof.
  assert (Hdigits : search_count (lower (py "three tips for saving")) = None)
    by (vm_compute; reflexivity).
  split; [exact Hdigits|].
  apply (proj2 (proj2 (detected_intent_well_formed (py "three tips for saving")))
           3%Z Hdigits).
  vm_compute. reflexivity.
Defined.











(** ** Context assembly, further *)

Lemma contents_cons_skip (d : doc) (rest : list doc) :
  match doc_content d with Some (_ :: _) => False | _ => True end ->
  contents (d :: rest) = contents rest.
Proof.
  unfold contents. cbn [flat_map].
  destruct (doc_content d) as [[|c cs]|]; intros H; try reflexivity.
  contradiction.
Qed.

Lemma context_loop_shape (docs : list doc) (total_chars : nat) :
  exists n,
    context_loop docs total_chars = firstn n (contents docs)
    \/ exists c r,
         nth_error (contents docs) n = Some c
         /\ 200 < r < length c
         /\ context_loop docs total_chars
            = firstn n (contents docs) ++ [firstn r c].
Proof.
  revert total_chars. induction docs as [|d rest IH]; intros total_chars.
  - exists 0. now left.
  - cbn [context_loop].
    destruct (doc_content d) as [[|c cs]|] eqn:Hd.
    + rewrite (contents_cons_skip d rest) by now rewrite Hd. apply IH.
    + assert (Hcons : contents (d :: rest) = (c :: cs) :: contents rest).
      { unfold contents. cbn [flat_map]. now rewrite Hd. }
      rewrite Hcons.
      destruct (Nat.leb_spec (total_chars + length (c :: cs)) max_chars)
        as [Hfit|Hover].
      * destruct (IH (total_chars + length (c :: cs)))
          as [n [Hall | [c' [r [Hnth [Hr Hcut]]]]]].
        -- exists (S n). left. cbn [firstn]. now rewrite Hall.
        -- exists (S n). right. exists c', r. cbn [firstn nth_error].
           repeat split; try assumption; try lia. now rewrite Hcut.
      * destruct (Nat.ltb_spec 200 (max_chars - total_chars)) as [Hroom|Hnone].
        -- exists 0. right. exists (c :: cs), (max_chars - total_chars).
           cbn [firstn nth_error app]. repeat split; try lia.
        -- exists 0. now left.
    + rewrite (contents_cons_skip d rest) by now rewrite Hd. apply IH.
Qed.

(** The context keeps the retrieval order and cuts at most one text: its
    parts are the first [n] document texts in full, possibly followed by
    the first [r] code points of the next text, with [r] above 200 and
    below the length of that text. *)
Theorem context_parts_shape (query : str) (db : retriever) :
  let texts := contents (rag_docs query db) in
  exists n,
    context_parts (rag_docs query db) = firstn n texts
    \/ exists c r,
         nth_error texts n = Some c
         /\ 200 < r < length c
         /\ context_parts (rag_docs query db) = firstn n texts ++ [firstn r c].
Proof. apply context_loop_shape. Qed.

Lemma context_loop_all_fit (docs : list doc) (total_chars : nat) :
  total_chars + total_length (contents docs) <= max_chars ->
  context_loop docs total_chars = contents docs.
Proof.
  revert total_chars. induction docs as [|d rest IH]; intros total_chars Hfit.
  - reflexivity.
  - cbn [context_loop].
    destruct (doc_content d) as [[|c cs]|] eqn:Hd.
    + rewrite (contents_cons_skip d rest) in * by now rewrite Hd. now apply IH.
    + assert (Hcons : contents (d :: rest) = (c :: cs) :: contents rest).
      { unfold contents. cbn [flat_map]. now rewrite Hd. }
      rewrite Hcons in *. unfold total_length in Hfit.
      change (list_sum (map (@length char) ((c :: cs) :: contents rest)))
        with (length (c :: cs) + total_length (contents rest)) in Hfit.
      destruct (Nat.leb_spec (total_chars + length (c :: cs)) max_chars)
        as [_|Hover]; [|lia].
      f_equal. apply IH. lia.
    + rewrite (contents_cons_skip d rest) in * by now rewrite Hd. now apply IH.
Qed.

(** When the texts of the retrieved documents total at most [max_chars]
    code points, the context is all of them, uncut, joined by blank lines. *)
Theorem context_of_fitting_docs (query : str) (db : retriever) :
  total_length (contents (rag_docs query db)) <= max_chars ->
  rag_context query db = join (NL ++ NL) (contents (rag_docs query db)).
Proof.
  intros Hfit. unfold rag_context, context_parts.
  now rewrite context_loop_all_fit.
Qed.

Lemma context_of_fitting_docs_witness :
  rag_context (py "How do I budget?") short_docs
  = py "Save early." ++ NL ++ NL ++ py "Spend less.".
Proof.
  rewrite context_of_fitting_docs.
  - vm_compute. reflexivity.
  - vm_compute. lia.
Defined.

(** ** Retrieval *)

Lemma fetch_docs_first_working (db : retriever) (expanded_query : str)
    (earlier : list str) (method : str) (later : list str)
    (call : str -> fetch_result) (docs : option (list doc)) :
  (forall m, In m earlier -> method_fails db expanded_query m) ->
  db method = Some call ->
  call expanded_query = Returns docs ->
  fetch_docs db (earlier ++ method :: later) expanded_query = docs.
Proof.
  intros Hfail Hsome Hcall. induction earlier as [|m rest IH].
  - cbn [app fetch_docs]. now rewrite Hsome, Hcall.
  - change ((m :: rest) ++ method :: later) with (m :: (rest ++ method :: later)).
    cbn [fetch_docs].
    destruct (Hfail m (or_introl eq_refl)) as [Hnone | [c [Hc Hraise]]].
    + rewrite Hnone. apply IH. intros m' Hm'. apply Hfail. now right.
    + rewrite Hc, Hraise. apply IH. intros m' Hm'. apply Hfail. now right.
Qed.

(** The documents are those of the first method, in the order
    get_relevant_documents, get_retrievals, retrieve, get_documents, invoke,
    that the retriever has and that does not raise; the methods after it
    are not consulted, and a returned [None] counts as no documents. *)
Theorem first_working_method_wins (query : str) (db : retriever)
    (earlier : list str) (method : str) (later : list str)
    (call : str -> fetch_result) (docs : option (list doc)) :
  fetch_methods = earlier ++ method :: later ->
  (forall m, In m earlier -> method_fails db (rewrite_query query) m) ->
  db method = Some call ->
  call (rewrite_query query) = Returns docs ->
  rag_docs query db = match docs with Some ds => ds | None => [] end.
Proof.
  intros Hsplit Hfail Hsome Hcall. unfold rag_docs. rewrite Hsplit.
  now rewrite (fetch_docs_first_working db _ earlier method later call docs).
Qed.

Lemma first_working_method_wins_witness :
  rag_docs (py "How do I budget?") two_docs = [doc750 97%N; doc750 98%N].
Proof.
  apply (first_working_method_wins (py "How do I budget?") two_docs
           (map py ["get_relevant_documents"; "get_retrievals"; "retrieve";
                    "get_documents"]%string)
           (py "invoke") []
           (fun _ => Returns (Some [doc750 97%N; doc750 98%N]))
           (Some [doc750 97%N; doc750 98%N])).
  - vm_compute. reflexivity.
  - intros m Hm. simpl in Hm.
    repeat (destruct Hm as [<- | Hm]);
      first [left; vm_compute; reflexivity | contradiction].
  - vm_compute. reflexivity.
  - reflexivity.
Defined.

(** ** Modes and prompts *)

(** Every mode other than "Strict" and "Hybrid" (a misspelt one as well) is
    handled as Model-only: the prompt and the empty source list are those of
    Model-only, and they do not depend on what the retriever returns. *)
Theorem other_modes_are_model_only {Stream : Type} (query : str)
    (db db' : retriever) (llm : str -> Stream) (rag_mode : str) :
  rag_mode <> py "Strict" ->
  rag_mode <> py "Hybrid" ->
  run_rag_chain query db llm rag_mode
  = run_rag_chain query db' llm (py "Model-only").
Proof.
  intros Hstrict Hhybrid.
  assert (Hs : eqb rag_mode (py "Strict") = false).
  { destruct (eqb rag_mode (py "Strict")) eqn:E; [|reflexivity].
    apply eqb_eq in E. contradiction. }
  assert (Hh : eqb rag_mode (py "Hybrid") = false).
  { destruct (eqb rag_mode (py "Hybrid")) eqn:E; [|reflexivity].
    apply eqb_eq in E. contradiction. }
  assert (Hms : eqb (py "Model-only") (py "Strict") = false)
    by (vm_compute; reflexivity).
  assert (Hmh : eqb (py "Model-only") (py "Hybrid") = false)
    by (vm_compute; reflexivity).
  unfold run_rag_chain, rag_prompt, rag_sources.
  now rewrite Hs, Hh, Hms, Hmh.
Qed.

Lemma other_modes_are_model_only_witness :
  run_rag_chain (py "How do I budget?") two_docs (fun p => p) (py "strict")
  = run_rag_chain (py "How do I budget?") no_methods (fun p => p)
      (py "Model-only").
Proof.
  apply other_modes_are_model_only; vm_compute; discriminate.
Defined.

(** The prompt of every mode carries the query as typed, and the Strict and
    the Hybrid prompt carry the assembled context. *)
Theorem prompt_carries_query_and_context (query : str) (db : retriever) :
  (forall rag_mode, contains query (rag_prompt query db rag_mode) = true)
  /\ contains (rag_context query db) (rag_prompt query db (py "Strict")) = true
  /\ contains (rag_context query db) (rag_prompt query db (py "Hybrid")) = true.
Proof.
  assert (Hhs : eqb (py "Hybrid") (py "Strict") = false)
    by (vm_compute; reflexivity).
  unfold rag_prompt.
  generalize (rag_count_instruction (detect_query_intent query)) as instruction.
  generalize (rag_list_format (detect_query_intent query)) as list_format.
  generalize (rag_context query db) as context.
  intros context list_format instruction.
  split; [|split].
  - intros rag_mode.
    destruct (eqb rag_mode (py "Strict"));
      [|destruct (eqb rag_mode (py "Hybrid"))];
      unfold strict_prompt, hybrid_prompt, model_only_prompt; find_in_concat.
  - rewrite eqb_refl. unfold strict_prompt. find_in_concat.
  - rewrite Hhs, eqb_refl. unfold hybrid_prompt. find_in_concat.
Qed.

(** ** extract_source_url *)

Lemma startswith_contains (p s : str) :
  startswith p s = true -> contains p s = true.
Proof. intros H. destruct s; simpl; now rewrite H. Qed.

Lemma with_scheme_http (v : str) :
  contains (py "http") v = true \/ startswith (py "www") v = true ->
  contains (py "http") (with_scheme v) = true.
Proof.
  unfold with_scheme. destruct (startswith (py "www") v).
  - intros _. apply (contains_head (py "http") (py "s://" ++ v)).
  - intros [H | H]; [exact H | discriminate H].
Qed.

Lemma url_from_keys_http (metadata : dict) (keys : list str) (u : str) :
  url_from_keys metadata keys = Some u -> contains (py "http") u = true.
Proof.
  induction keys as [|k rest IH]; cbn [url_from_keys]; [discriminate|].
  destruct (dict_get k metadata) as [[|v|n]|]; try exact IH.
  destruct (truthy (PStr v)
            && (startswith (py "http") v || startswith (py "www") v)) eqn:Hc;
    [|exact IH].
  intros [= <-]. apply with_scheme_http.
  apply andb_true_iff in Hc as [_ Hc]. apply orb_true_iff in Hc as [Hc | Hc].
  - left. now apply startswith_contains.
  - now right.
Qed.

Lemma url_from_values_http (vs : list pyval) (u : str) :
  url_from_values vs = Some u -> contains (py "http") u = true.
Proof.
  induction vs as [|[|v|n] rest IH]; cbn [url_from_values];
    try discriminate; try exact IH.
  destruct (contains (py "http") v || startswith (py "www") v) eqn:Hc;
    [|exact IH].
  intros [= <-]. apply with_scheme_http. now apply orb_true_iff in Hc.
Qed.

(** Whatever the metadata holds, the address returned contains "http":
    it is the default address, a value that contains "http", or a value
    starting with "www" with "https://" put before it. *)
Theorem extract_source_url_has_scheme (metadata : dict) :
  contains (py "http") (extract_source_url metadata) = true.
Proof.
  unfold extract_source_url. destruct metadata as [|kv rest].
  - vm_compute. reflexivity.
  - destruct (url_from_keys (kv :: rest) url_keys) as [u|] eqn:Hkeys.
    + exact (url_from_keys_http _ _ _ Hkeys).
    + destruct (url_from_values (values (kv :: rest))) as [u|] eqn:Hvalues.
      * exact (url_from_values_http _ _ Hvalues).
      * vm_compute. reflexivity.
Qed.

(** A ["url"] entry that starts with "http" is returned as it is, whatever
    the other entries are. *)
Theorem extract_source_url_prefers_url (metadata : dict) (v : str) :
  dict_get (py "url") metadata = Some (PStr v) ->
  startswith (py "http") v = true ->
  extract_source_url metadata = v.
Proof.
  intros Hget Hhttp.
  apply startswith_spec in Hhttp as [rest ->].
  unfold extract_source_url. destruct metadata as [|kv more]; [discriminate|].
  unfold url_keys. cbn [map url_from_keys]. rewrite Hget. reflexivity.
Qed.

Lemma extract_source_url_prefers_url_witness :
  extract_source_url
    [ (py "source", PStr (py "www.example.org/a"));
      (py "url", PStr (py "https://www.kwsp.gov.my/w/article/emergency-fund")) ]
  = py "https://www.kwsp.gov.my/w/article/emergency-fund".
Proof.
  apply extract_source_url_prefers_url; vm_compute; reflexivity.
Defined.

(** ** get_article_info *)

Lemma truthy_text (v : pyval) :
  text_or_none v = true -> truthy v = true -> exists s, v = PStr s.
Proof. destruct v as [|s|n]; try discriminate. intros _ _. now exists s. Qed.

Lemma get_default_text (metadata : dict) (k : str) (s : str) :
  (forall key v, dict_get key metadata = Some v -> text_or_none v = true) ->
  text_or_none (get_default metadata k (PStr s)) = true.
Proof.
  intros Hmeta. unfold get_default.
  destruct (dict_get k metadata) as [v|] eqn:E; [exact (Hmeta _ _ E)|reflexivity].
Qed.

Lemma title_has_total (meta_title : pyval) (words : list str) :
  text_or_none meta_title = true ->
  exists b, title_has meta_title words = Some b.
Proof.
  intros Ht. unfold title_has. destruct (truthy meta_title) eqn:E.
  - destruct (truthy_text _ Ht E) as [s ->]. now eexists.
  - now eexists.
Qed.

Lemma key_or_title_total (source_key : str) (meta_title : pyval)
    (words : list str) :
  text_or_none meta_title = true ->
  exists b, key_or_title source_key meta_title words = Some b.
Proof.
  intros Ht. unfold key_or_title.
  destruct (existsb _ words); [now eexists | now apply title_has_total].
Qed.

Lemma lalua_block_total (source_key : str) (meta_title : pyval) :
  text_or_none meta_title = true ->
  exists r, lalua_block source_key meta_title = Some r.
Proof.
  intros Ht. unfold lalua_block.
  destruct (key_or_title_total source_key meta_title [py "lalua"] Ht) as [b ->].
  destruct b; [|now eexists].
  destruct (key_or_title_total source_key meta_title [py "mistake"] Ht) as [b ->].
  destruct b; [now eexists|].
  destruct (key_or_title_total source_key meta_title [py "budget"] Ht) as [b ->].
  destruct b; [now eexists|].
  destruct (key_or_title_total source_key meta_title
              [py "mindset"; py "freedom"] Ht) as [b ->].
  destruct b; now eexists.
Qed.

Lemma title_block_total (meta_title : pyval) :
  text_or_none meta_title = true ->
  exists r, title_block meta_title = Some r.
Proof.
  intros Ht. unfold title_block. destruct (truthy meta_title) eqn:E.
  - destruct (truthy_text _ Ht E) as [s ->].
    destruct (table_get _ ARTICLE_URLS); [now eexists|].
    destruct (partial_match _ ARTICLE_URLS); now eexists.
  - now eexists.
Qed.

Lemma article_lookup_total (unnamed : bool) (source_name : pyval)
    (source_key : str) (metadata : dict) :
  text_or_none (get_default metadata (py "title") (PStr [])) = true ->
  exists r,
    match lalua_block source_key (get_default metadata (py "title") (PStr [])) with
    | Some early =>
        match early with
        | Some r => Some r
        | None =>
            match title_block (get_default metadata (py "title") (PStr [])) with
            | Some by_title =>
                match by_title with
                | Some r => Some r
                | None =>
                    if unnamed
                    then Some (get_default metadata (py "title")
                                 (PStr (py "Unknown Source")),
                               extract_source_url metadata)
                    else
                      match table_get source_key ARTICLE_URLS with
                      | Some info => Some (PStr (title info), url info)
                      | None =>
                          match partial_match source_key ARTICLE_URLS with
                          | Some info => Some (PStr (title info), url info)
                          | None =>
                              Some (get_default metadata (py "title") source_name,
                                    extract_source_url metadata)
                          end
                      end
                end
            | None => None
            end
        end
    | None => None
    end = Some r.
Proof.
  intros Ht.
  destruct (lalua_block_total source_key _ Ht) as [early ->].
  destruct early as [r|]; [now eexists|].
  destruct (title_block_total _ Ht) as [by_title ->].
  destruct by_title as [r|]; [now eexists|].
  destruct unnamed; [now eexists|].
  destruct (table_get source_key ARTICLE_URLS); [now eexists|].
  destruct (partial_match source_key ARTICLE_URLS); now eexists.
Qed.

(** When the source name and every metadata value are texts or [None] (no
    number among them), [get_article_info] returns a title and an address:
    none of its string operations can raise. *)
Theorem get_article_info_total (basename : str -> str) (source_name : pyval)
    (metadata : dict) :
  text_or_none source_name = true ->
  (forall key v, dict_get key metadata = Some v -> text_or_none v = true) ->
  exists r, get_article_info basename source_name metadata = Some r.
Proof.
  intros Hname Hmeta. unfold get_article_info.
  pose proof (get_default_text metadata (py "source_file") [] Hmeta) as Hfile.
  pose proof (get_default_text metadata (py "title") [] Hmeta) as Htitle.
  destruct (truthy (get_default metadata (py "source_file") (PStr []))
            && negb (truthy source_name)) eqn:Hc.
  - apply andb_true_iff in Hc as [Hc _].
    destruct (truthy_text _ Hfile Hc) as [f ->].
    destruct (truthy (PStr (basename f)));
      apply article_lookup_total; exact Htitle.
  - destruct (truthy source_name) eqn:Hn.
    + destruct (truthy_text _ Hname Hn) as [s ->].
      apply article_lookup_total; exact Htitle.
    + apply article_lookup_total; exact Htitle.
Qed.

Lemma get_article_info_total_witness :
  exists r,
    get_article_info (fun path => path) (PStr (py "first_salary_tips.jsonl"))
      [ (py "source", PStr (py "first_salary_tips.jsonl"));
        (py "title", PNone) ] = Some r.
Proof.
  apply get_article_info_total.
  - reflexivity.
  - intros key v. cbn [dict_get].
    destruct (eqb key (py "source")); [intros [= <-]; reflexivity|].
    destruct (eqb key (py "title")); [intros [= <-]; reflexivity|].
    discriminate.
Defined.

Lemma table_get_in (key : str) (table : list (str * article)) (info : article) :
  table_get key table = Some info -> exists k, In (k, info) table.
Proof.
  induction table as [|[k a] rest IH]; cbn [table_get]; [discriminate|].
  destruct (eqb key k).
  - intros [= <-]. exists k. now left.
  - intros H. destruct (IH H) as [k' Hin]. exists k'. now right.
Qed.

Lemma partial_match_in (key : str) (table : list (str * article))
    (info : article) :
  partial_match key table = Some info -> exists k, In (k, info) table.
Proof.
  unfold partial_match.
  destruct (find _ table) as [[k a]|] eqn:Hfind; [|discriminate].
  intros [= <-]. apply find_spec in Hfind as [pre [post [-> _]]].
  exists k. apply in_or_app. right. now left.
Qed.

Lemma table_urls_have_scheme (k : str) (info : article) :
  In (k, info) ARTICLE_URLS -> contains (py "http") (url info) = true.
Proof.
  intros Hin.
  assert (Hall : forallb (fun e => contains (py "http") (url (snd e)))
                   ARTICLE_URLS = true) by (vm_compute; reflexivity).
  rewrite forallb_forall in Hall. exact (Hall (k, info) Hin).
Qed.

Lemma lalua_block_url (source_key : str) (meta_title : pyval)
    (r : pyval * str) :
  lalua_block source_key meta_title = Some (Some r) ->
  contains (py "http") (snd r) = true.
Proof.
  unfold lalua_block.
  destruct (key_or_title source_key meta_title [py "lalua"]) as [[|]|];
    try discriminate.
  destruct (key_or_title source_key meta_title [py "mistake"]) as [[|]|];
    try discriminate; [intros [= <-]; vm_compute; reflexivity|].
  destruct (key_or_title source_key meta_title [py "budget"]) as [[|]|];
    try discriminate; [intros [= <-]; vm_compute; reflexivity|].
  destruct (key_or_title source_key meta_title [py "mindset"; py "freedom"])
    as [[|]|]; try discriminate.
  intros [= <-]; vm_compute; reflexivity.
Qed.

Lemma title_block_url (meta_title : pyval) (r : pyval * str) :
  title_block meta_title = Some (Some r) ->
  contains (py "http") (snd r) = true.
Proof.
  unfold title_block. destruct (truthy meta_title); [|discriminate].
  destruct meta_title as [|t|n]; try discriminate.
  destruct (table_get (normalize_key t) ARTICLE_URLS) as [info|] eqn:Hexact.
  - intros [= <-]. destruct (table_get_in _ _ _ Hexact) as [k Hin].
    exact (table_urls_have_scheme k info Hin).
  - destruct (partial_match (normalize_key t) ARTICLE_URLS) as [info|] eqn:Hpart;
      [|discriminate].
    intros [= <-]. destruct (partial_match_in _ _ _ Hpart) as [k Hin].
    exact (table_urls_have_scheme k info Hin).
Qed.

(** Every address that [get_article_info] returns contains "http": it is
    one of the fixed Lalua Rahsiad addresses, the address of an
    [ARTICLE_URLS] entry, or the result of [extract_source_url]. *)
Theorem get_article_info_url_has_scheme (basename : str -> str)
    (source_name : pyval) (metadata : dict) (t : pyval) (u : str) :
  get_article_info basename source_name metadata = Some (t, u) ->
  contains (py "http") u = true.
Proof.
  intros H. unfold get_article_info in H.
  repeat match type of H with
         | match ?e with _ => _ end = _ =>
             let E := fresh "E" in destruct e eqn:E; try discriminate H
         end;
    inversion H; subst;
    first [ apply extract_source_url_has_scheme
          | match goal with
            | E : lalua_block _ _ = Some (Some ?r) |- _ =>
                exact (lalua_block_url _ _ _ E)
            end
          | match goal with
            | E : title_block _ = Some (Some ?r) |- _ =>
                exact (title_block_url _ _ E)
            end
          | match goal with
            | E : table_get _ _ = Some ?info |- _ =>
                destruct (table_get_in _ _ _ E) as [k Hin];
                exact (table_urls_have_scheme k info Hin)
            end
          | match goal with
            | E : partial_match _ _ = Some ?info |- _ =>
                destruct (partial_match_in _ _ _ E) as [k Hin];
                exact (table_urls_have_scheme k info Hin)
            end ].
Qed.

Lemma get_article_info_url_has_scheme_witness :
  contains (py "http") (py "https://www.kwsp.gov.my/w/article/first-salary-tips")
  = true.
Proof.
  apply (get_article_info_url_has_scheme (fun path => path)
           (PStr (py "First Salary Tips.pdf")) [] (PStr (py "First Salary Tips"))).
  vm_compute. reflexivity.
Defined.

(** A source whose normalized name contains "lalua" and "mistake" is the
    Lalua Rahsiad article on the five mistakes, whatever the metadata holds:
    the name alone decides, before any lookup in [ARTICLE_URLS]. *)
Theorem lalua_mistakes_by_name (basename : str -> str) (name : str)
    (metadata : dict) :
  contains (py "lalua") (lower (normalize_key name)) = true ->
  contains (py "mistake") (lower (normalize_key name)) = true ->
  get_article_info basename (PStr name) metadata
  = Some (PStr (py "5 Mistakes Young Adults Make With Money"),
          py "https://www.laluarahsiad.com/blog-2/blog2").
Proof.
  intros Hlalua Hmistake.
  destruct name as [|c name]; [vm_compute in Hlalua; discriminate|].
  unfold get_article_info.
  change (truthy (PStr (c :: name))) with true.
  cbn [negb]. rewrite andb_false_r.
  cbv beta iota.
  change (truthy (PStr (c :: name))) with true. cbv beta iota.
  unfold lalua_block, key_or_title. cbn [existsb].
  rewrite Hlalua. cbn [orb]. rewrite Hmistake. reflexivity.
Qed.

Lemma lalua_mistakes_by_name_witness :
  get_article_info (fun path => path)
    (PStr (py "5 Mistakes Young Adult Make With Money - Lalua Rahsiad.jsonl"))
    [ (py "title", PInt 5) ]
  = Some (PStr (py "5 Mistakes Young Adults Make With Money"),
          py "https://www.laluarahsiad.com/blog-2/blog2").
Proof.
  apply lalua_mistakes_by_name; vm_compute; reflexivity.
Defined.

(** ** Greetings, further *)

(** Only the inputs of the stated shape are taken as greetings, and any
    other input goes to [run_rag_chain], once, with the mode of the
    session: its stream and its sources make the turn. *)
Theorem greeting_only_if (text : str) :
  (is_greeting text = true ->
   text <> []
   /\ (In (lower (strip text)) greetings
       \/ (length (split (lower (strip text))) <= 2
           /\ exists g rest,
                In g greetings /\ lower (strip text) = g ++ rest)))
  /\ (is_greeting text = false ->
      forall (Stream : Type) (db : retriever) (llm : str -> Stream)
             (rag_mode : str),
        chat_turn text db llm rag_mode
        = {| turn_reply := Streamed (fst (run_rag_chain text db llm rag_mode));
             turn_sources := snd (run_rag_chain text db llm rag_mode);
             rag_calls := [(text, rag_mode)] |}).
Proof.
  split.
  - unfold is_greeting. destruct text as [|c text]; [discriminate|].
    set (t := lower (strip (c :: text))).
    intros H. split; [discriminate|].
    apply orb_true_iff in H as [H | H].
    + left. apply existsb_exists in H as [g [Hin Heq]].
      apply eqb_eq in Heq. now rewrite Heq.
    + right. apply andb_true_iff in H as [Hwords Hstart].
      split; [now apply Nat.leb_le|].
      apply existsb_exists in Hstart as [g [Hin Hpre]].
      apply startswith_spec in Hpre as [rest Hrest]. now exists g, rest.
  - intros H Stream db llm rag_mode. unfold chat_turn. rewrite H.
    reflexivity.
Qed.

Lemma greeting_only_if_witness :
  chat_turn (py "hi how are you") no_methods (fun p => p) (py "Hybrid")
  = {| turn_reply :=
         Streamed (fst (run_rag_chain (py "hi how are you") no_methods
                          (fun p => p) (py "Hybrid")));
       turn_sources := [];
       rag_calls := [(py "hi how are you", py "Hybrid")] |}.
Proof.
  apply (proj2 (greeting_only_if (py "hi how are you"))).
  vm_compute. reflexivity.
Defined.

(** ** convert_rag_to_training.py, further *)

Lemma best_topic_spec (scores : list (str * nat)) (t : str) (n : nat) :
  exists n',
    In (ConvertRag.best_topic scores t n, n') ((t, n) :: scores)
    /\ forall t' m, In (t', m) ((t, n) :: scores) -> m <= n'.
Proof.
  revert t n. induction scores as [|[t1 n1] rest IH]; intros t n.
  - exists n. split; [now left|]. intros t' m [[= _ <-] | []]. lia.
  - cbn [ConvertRag.best_topic].
    destruct (Nat.ltb_spec n n1) as [Hlt|Hge].
    + destruct (IH t1 n1) as [n' [Hin Hmax]]. exists n'. split.
      * now right.
      * intros t' m [[= _ <-] | Hm].
        -- specialize (Hmax t1 n1 (or_introl eq_refl)). lia.
        -- now apply (Hmax t').
    + destruct (IH t n) as [n' [Hin Hmax]]. exists n'. split.
      * destruct Hin as [Hin | Hin]; [now left | right; now right].
      * intros t' m [Hm | [[= _ <-] | Hm]].
        -- apply (Hmax t'). now left.
        -- specialize (Hmax t n (or_introl eq_refl)). lia.
        -- apply (Hmax t'). now right.
Qed.

(** The topic of a text is "general" when no keyword of any topic occurs
    in it; otherwise it is a topic of [TOPIC_KEYWORDS] with at least one
    keyword in the text and no other topic has more. *)
Theorem identify_topic_best (text : str) :
  (ConvertRag.identify_topic text = py "general"
   /\ forall tk, In tk ConvertRag.TOPIC_KEYWORDS -> topic_score text tk = 0)
  \/ exists tk,
       In tk ConvertRag.TOPIC_KEYWORDS
       /\ ConvertRag.identify_topic text = fst tk
       /\ 0 < topic_score text tk
       /\ forall tk', In tk' ConvertRag.TOPIC_KEYWORDS ->
                      topic_score text tk' <= topic_score text tk.
Proof.
  unfold ConvertRag.identify_topic.
  set (score := fun tk : str * list str => (fst tk, topic_score text tk)).
  change (map _ ConvertRag.TOPIC_KEYWORDS)
    with (map score ConvertRag.TOPIC_KEYWORDS).
  set (positive := fun ts : str * nat => 0 <? snd ts).
  destruct (filter positive (map score ConvertRag.TOPIC_KEYWORDS))
    as [|[t n] rest] eqn:Hscores.
  - left. split; [reflexivity|]. intros tk Hin.
    destruct (topic_score text tk) as [|k] eqn:Hk; [reflexivity|exfalso].
    assert (Hmem : In (score tk) (filter positive (map score ConvertRag.TOPIC_KEYWORDS))).
    { apply filter_In. split; [now apply in_map|].
      unfold positive, score. cbn [snd]. rewrite Hk. reflexivity. }
    rewrite Hscores in Hmem. exact Hmem.
  - right. destruct (best_topic_spec rest t n) as [n' [Hbest Hmax]].
    rewrite <- Hscores in Hbest, Hmax.
    apply filter_In in Hbest as [Hbest Hpos].
    apply in_map_iff in Hbest as [tk [Htk Hin]].
    unfold score in Htk. injection Htk as Hname Hn'.
    exists tk. repeat split.
    + exact Hin.
    + now rewrite Hname.
    + unfold positive in Hpos. cbn [snd] in Hpos. apply Nat.ltb_lt in Hpos. lia.
    + intros tk' Hin'. rewrite Hn'.
      destruct (topic_score text tk') as [|k] eqn:Hk; [lia|].
      rewrite <- Hk. apply (Hmax (fst tk')).
      apply filter_In. split.
      * now apply (in_map score) in Hin'.
      * unfold positive. cbn [snd]. rewrite Hk. reflexivity.
Qed.

Lemma convert_table_get_in {A : Type} (key : str) (table : list (str * A))
    (v : A) :
  ConvertRag.table_get key table = Some v -> exists k, In (k, v) table.
Proof.
  induction table as [|[k a] rest IH]; cbn [ConvertRag.table_get];
    [discriminate|].
  destruct (eqb key k).
  - intros [= <-]. exists k. now left.
  - intros H. destruct (IH H) as [k' Hin]. exists k'. now right.
Qed.

Lemma templates_have_no_preset (t : str) (qs : list (str * option str))
    (qa : str * option str) :
  In (t, qs) ConvertRag.TOPIC_QA_TEMPLATES -> In qa qs -> snd qa = None.
Proof.
  intros Ht Hqa.
  assert (Hall : forallb (fun e => forallb (fun qa : str * option str =>
                                              match snd qa with
                                              | None => true
                                              | Some _ => false
                                              end) (snd e))
                   ConvertRag.TOPIC_QA_TEMPLATES = true)
    by (vm_compute; reflexivity).
  rewrite forallb_forall in Hall. specialize (Hall (t, qs) Ht). cbn [snd] in Hall.
  rewrite forallb_forall in Hall. specialize (Hall qa Hqa).
  now destruct (snd qa).
Qed.

Lemma some_eq {A : Type} (a b : A) : Some a = Some b -> a = b.
Proof. now intros [= ->]. Qed.

Lemma chosen_templates (topic : str) (qa : str * option str) :
  In qa match ConvertRag.table_get topic ConvertRag.TOPIC_QA_TEMPLATES with
        | Some ts => ts
        | None =>
            match ConvertRag.table_get (py "general")
                    ConvertRag.TOPIC_QA_TEMPLATES with
            | Some ts => ts
            | None => []
            end
        end ->
  exists t qs, In (t, qs) ConvertRag.TOPIC_QA_TEMPLATES /\ In qa qs.
Proof.
  destruct (ConvertRag.table_get topic ConvertRag.TOPIC_QA_TEMPLATES)
    as [ts|] eqn:Htopic.
  - intros Hin. destruct (convert_table_get_in _ _ _ Htopic) as [k Hk].
    now exists k, ts.
  - destruct (ConvertRag.table_get (py "general") ConvertRag.TOPIC_QA_TEMPLATES)
      as [ts|] eqn:Hgeneral; [|intros []].
    intros Hin. destruct (convert_table_get_in _ _ _ Hgeneral) as [k Hk].
    now exists k, ts.
Qed.

(** With a sampler that returns [k] members of the population, as
    [random.sample] does, a chunk yields at most two pairs; each pair names
    the file as its source, asks a question of [TOPIC_QA_TEMPLATES] and
    answers it with a text of at least 80 code points. *)
Theorem qa_pairs_well_formed
    (re_sub : str -> list ConvertRag.re_flag -> str -> str -> str)
    (re_split : str -> str -> list str)
    (random_sample : list (str * option str) -> nat -> list (str * option str))
    (chunk : Json.object) (filename : str) (pairs : list ConvertRag.qa_pair) :
  (forall population k qa,
      In qa (random_sample population k) -> In qa population) ->
  (forall population k,
      k <= length population -> length (random_sample population k) = k) ->
  ConvertRag.create_qa_pairs_from_chunk re_sub re_split random_sample
    chunk filename = Some pairs ->
  length pairs <= 2
  /\ forall p, In p pairs ->
       ConvertRag.source p = filename
       /\ 80 <= length (ConvertRag.completion p)
       /\ exists t qs, In (t, qs) ConvertRag.TOPIC_QA_TEMPLATES
                       /\ In (ConvertRag.prompt p, None) qs.
Proof.
  intros Hmember Hsize H.
  unfold ConvertRag.create_qa_pairs_from_chunk in H. cbv zeta in H.
  repeat match type of H with
         | match ?e with _ => _ end = _ =>
             let E := fresh "E" in destruct e eqn:E; try discriminate H
         end;
    apply some_eq in H; subst pairs;
    try (split; [cbn [length]; lia | intros p []]).
  split.
  - rewrite length_map, Hsize; lia.
  - intros p Hp. apply in_map_iff in Hp as [qa [<- Hqa]].
    apply Hmember in Hqa.
    destruct (chosen_templates _ _ Hqa) as [t [qs [Ht Hqs]]].
    pose proof (templates_have_no_preset t qs qa Ht Hqs) as Hpreset.
    destruct qa as [q preset]. cbn [snd] in Hpreset. subst preset.
    cbn [ConvertRag.source ConvertRag.completion ConvertRag.prompt fst snd].
    repeat split.
    + match goal with
      | E : (length ?x <? 80) = false |- 80 <= length ?x =>
          now apply Nat.ltb_ge in E
      end.
    + exists t, qs. split; [exact Ht|].
      exact Hqs.
Qed.

Lemma in_firstn {A : Type} (k : nat) (l : list A) (x : A) :
  In x (firstn k l) -> In x l.
Proof.
  revert l. induction k as [|k IH]; intros [|a l]; simpl; try tauto.
  intros [-> | H]; [now left | right; now apply IH].
Qed.

Lemma qa_pairs_well_formed_witness :
  exists pairs,
    ConvertRag.create_qa_pairs_from_chunk sub_nothing split_bars sample_first
      saving_chunk (py "pay_yourself_first.jsonl") = Some pairs
    /\ pairs <> []
    /\ length pairs <= 2.
Proof.
  eexists. split; [vm_compute; reflexivity|]. split; [discriminate|].
  refine (proj1 (qa_pairs_well_formed sub_nothing split_bars sample_first
                   saving_chunk (py "pay_yourself_first.jsonl") _ _ _ _)).
  - intros population k qa. apply in_firstn.
  - intros population k Hk. unfold sample_first.
    rewrite length_firstn. lia.
  - vm_compute. reflexivity.
Defined.

(** The text of a chunk at its edges: a chunk without a text, or with a
    text that counts as false (null, empty, zero), gives no pair; a text
    that is true in a condition and has no length (a number other than
    zero, [true]) makes the function raise. *)
Theorem qa_pairs_text_edges
    (re_sub : str -> list ConvertRag.re_flag -> str -> str -> str)
    (re_split : str -> str -> list str)
    (random_sample : list (str * option str) -> nat -> list (str * option str))
    (chunk : Json.object) (filename : str) :
  (Json.get (py "text") chunk = None ->
   ConvertRag.create_qa_pairs_from_chunk re_sub re_split random_sample
     chunk filename = Some [])
  /\ (forall v,
         Json.get (py "text") chunk = Some v ->
         Json.truthy v = false ->
         ConvertRag.create_qa_pairs_from_chunk re_sub re_split random_sample
           chunk filename = Some [])
  /\ (forall v,
         Json.get (py "text") chunk = Some v ->
         Json.truthy v = true ->
         Json.len v = None ->
         ConvertRag.create_qa_pairs_from_chunk re_sub re_split random_sample
           chunk filename = None).
Proof.
  unfold ConvertRag.create_qa_pairs_from_chunk. split; [|split].
  - intros ->. reflexivity.
  - intros v -> Hfalse. now rewrite Hfalse.
  - intros v -> Htrue Hlen. now rewrite Htrue, Hlen.
Qed.

Lemma qa_pairs_text_edges_witness :
  ConvertRag.create_qa_pairs_from_chunk sub_nothing split_bars sample_first
    textless_chunk (py "a.jsonl") = Some []
  /\ ConvertRag.create_qa_pairs_from_chunk sub_nothing split_bars sample_first
       numeric_chunk (py "a.jsonl") = None.
Proof.
  split.
  - apply (proj1 (qa_pairs_text_edges sub_nothing split_bars sample_first
                    textless_chunk (py "a.jsonl"))).
    vm_compute. reflexivity.
  - apply (proj2 (proj2 (qa_pairs_text_edges sub_nothing split_bars
                           sample_first numeric_chunk (py "a.jsonl")))
             (JInt 42)); vm_compute; reflexivity.
Defined.

(** *** Removal of duplicate pairs *)

Lemma key_eqb_eq (a b : str * str) : ConvertRag.key_eqb a b = true <-> a = b.
Proof.
  destruct a as [a1 a2], b as [b1 b2]. unfold ConvertRag.key_eqb. cbn [fst snd].
  rewrite andb_true_iff, !eqb_eq. split.
  - now intros [-> ->].
  - now intros [= -> ->].
Qed.

Lemma seen_spec (key : str * str) (seen : list (str * str)) :
  existsb (ConvertRag.key_eqb key) seen = true <-> In key seen.
Proof.
  rewrite existsb_exists. split.
  - intros [k [Hin Heq]]. apply key_eqb_eq in Heq. now subst.
  - intros Hin. exists key. split; [exact Hin | now apply key_eqb_eq].
Qed.

Lemma unique_pairs_from_spec (seen : list (str * str))
    (pairs : list ConvertRag.qa_pair) :
  NoDup (map ConvertRag.dedup_key (ConvertRag.unique_pairs_from seen pairs))
  /\ (forall p, In p (ConvertRag.unique_pairs_from seen pairs) ->
                In p pairs /\ ~ In (ConvertRag.dedup_key p) seen)
  /\ (forall p, In p pairs ->
                In (ConvertRag.dedup_key p) seen
                \/ In (ConvertRag.dedup_key p)
                     (map ConvertRag.dedup_key
                        (ConvertRag.unique_pairs_from seen pairs))).
Proof.
  revert seen. induction pairs as [|qa rest IH]; intros seen.
  - cbn. split; [constructor | split; intros p []].
  - cbn [ConvertRag.unique_pairs_from].
    destruct (existsb (ConvertRag.key_eqb (ConvertRag.dedup_key qa)) seen)
      eqn:Hseen.
    + apply seen_spec in Hseen.
      destruct (IH seen) as [Hnodup [Hsub Hcover]].
      split; [exact Hnodup | split].
      * intros p Hp. split; [right|]; now apply Hsub.
      * intros p [<- | Hp]; [now left | now apply Hcover].
    + assert (Hnew : ~ In (ConvertRag.dedup_key qa) seen).
      { intros Hin. apply seen_spec in Hin. congruence. }
      destruct (IH (ConvertRag.dedup_key qa :: seen)) as [Hnodup [Hsub Hcover]].
      split; [|split].
      * cbn [map]. constructor; [|exact Hnodup].
        intros Hin. apply in_map_iff in Hin as [p [Hkey Hp]].
        apply (proj2 (Hsub p Hp)). left. now rewrite Hkey.
      * intros p [<- | Hp].
        -- split; [now left | exact Hnew].
        -- split; [right; now apply Hsub|].
           intros Hin. apply (proj2 (Hsub p Hp)). now right.
      * intros p [<- | Hp]; [right; now left|].
        destruct (Hcover p Hp) as [[Heq | Hin] | Hin].
        -- right. left. exact Heq.
        -- now left.
        -- right. right. exact Hin.
Qed.

(** The pairs kept after the removal of duplicates are pairs of the input,
    no two of them share a question and the first 100 code points of the
    answer, and every input pair has a kept pair with its key. *)
Theorem unique_pairs_spec (all_qa_pairs : list ConvertRag.qa_pair) :
  NoDup (map ConvertRag.dedup_key (ConvertRag.unique_pairs all_qa_pairs))
  /\ (forall p, In p (ConvertRag.unique_pairs all_qa_pairs) ->
                In p all_qa_pairs)
  /\ (forall p, In p all_qa_pairs ->
                In (ConvertRag.dedup_key p)
                   (map ConvertRag.dedup_key
                      (ConvertRag.unique_pairs all_qa_pairs))).
Proof.
  unfold ConvertRag.unique_pairs.
  destruct (unique_pairs_from_spec [] all_qa_pairs) as [Hnodup [Hsub Hcover]].
  split; [exact Hnodup | split].
  - intros p Hp. now apply Hsub.
  - intros p Hp. destruct (Hcover p Hp) as [[] | Hin]. exact Hin.
Qed.

Lemma unique_pairs_from_fixed (seen : list (str * str))
    (pairs : list ConvertRag.qa_pair) :
  NoDup (map ConvertRag.dedup_key pairs) ->
  (forall p, In p pairs -> ~ In (ConvertRag.dedup_key p) seen) ->
  ConvertRag.unique_pairs_from seen pairs = pairs.
Proof.
  revert seen. induction pairs as [|qa rest IH]; intros seen Hnodup Hfresh.
  - reflexivity.
  - cbn [ConvertRag.unique_pairs_from].
    destruct (existsb (ConvertRag.key_eqb (ConvertRag.dedup_key qa)) seen)
      eqn:Hseen.
    + apply seen_spec in Hseen. exfalso.
      apply (Hfresh qa (or_introl eq_refl) Hseen).
    + cbn [map] in Hnodup. inversion Hnodup as [|k ks Hhead Htail]; subst.
      f_equal. apply IH; [exact Htail|].
      intros p Hp [Heq | Hin].
      * apply Hhead. rewrite Heq. now apply in_map.
      * apply (Hfresh p (or_intror Hp) Hin).
Qed.

(** Removing duplicates from a list that went through the removal changes
    nothing, the order of the kept pairs included. *)
Theorem unique_pairs_idempotent (all_qa_pairs : list ConvertRag.qa_pair) :
  ConvertRag.unique_pairs (ConvertRag.unique_pairs all_qa_pairs)
  = ConvertRag.unique_pairs all_qa_pairs.
Proof.
  unfold ConvertRag.unique_pairs at 1.
  apply unique_pairs_from_fixed.
  - apply unique_pairs_spec.
  - intros p _ [].
Qed.

(** ** fix_chunks_metadata.py, further *)

Lemma replace_aux_chars (old new : str) (skip : nat) (s : str) (x : char) :
  In x (replace_aux old new skip s) -> In x s \/ In x new.
Proof.
  revert skip. induction s as [|c t IH]; intros skip; cbn [replace_aux].
  - intros [].
  - destruct skip as [|k].
    + destruct (startswith old (c :: t)).
      * intros H. apply in_app_or in H as [H | H]; [now right|].
        destruct (IH _ H) as [Ht | Hn]; [left; now right | now right].
      * intros [<- | H]; [left; now left|].
        destruct (IH _ H) as [Ht | Hn]; [left; now right | now right].
    + intros H. destruct (IH _ H) as [Ht | Hn]; [left; now right | now right].
Qed.

Lemma replace_chars (old new s : str) (x : char) :
  In x (replace old new s) -> In x s \/ In x new.
Proof.
  unfold replace. destruct old; [now left | apply replace_aux_chars].
Qed.

Lemma replace_single_gone (c : char) (new s : str) :
  ~ In c new -> ~ In c (replace [c] new s).
Proof.
  intros Hnew. unfold replace.
  induction s as [|x t IH]; cbn [replace_aux startswith length Nat.pred].
  - intros [].
  - destruct (N.eqb_spec c x) as [Heq|Hne]; cbn [andb].
    + intros H. apply in_app_or in H as [H | H]; [now apply Hnew | now apply IH].
    + intros [H | H]; [now apply Hne | now apply IH].
Qed.

Lemma contains_single (c : char) (s : str) :
  contains [c] s = false <-> ~ In c s.
Proof.
  induction s as [|x t IH]; cbn [contains startswith].
  - split; [intros _ [] | reflexivity].
  - rewrite orb_false_iff, IH, andb_true_r. split.
    + intros [Hx Ht] [<- | Hin]; [now rewrite N.eqb_refl in Hx | now apply Ht].
    + intros H. split.
      * apply N.eqb_neq. intros <-. apply H. now left.
      * intros Hin. apply H. now right.
Qed.

(** The normalized file name holds no space and no hyphen. *)
Theorem normalize_filename_no_space_no_hyphen (filename : str) :
  contains (py " ") (FixChunks.normalize_filename filename) = false
  /\ contains (py "-") (FixChunks.normalize_filename filename) = false.
Proof.
  unfold FixChunks.normalize_filename.
  set (name := FixChunks.drop_copy_number _).
  set (plain := replace (py "-") (py "_") (replace (py " ") (py "_") name)).
  assert (Hspace : ~ In 32%N plain).
  { intros H. apply replace_chars in H as [H | H].
    - revert H. apply (replace_single_gone 32%N (py "_") name).
      intros [E | []]; discriminate E.
    - destruct H as [E | []]; discriminate E. }
  assert (Hhyphen : ~ In 45%N plain).
  { apply (replace_single_gone 45%N (py "_")). intros [E | []]; discriminate E. }
  assert (Hwww : forall c, In c (replace (py "www.") [] (replace (py "www_") [] plain))
                           -> In c plain).
  { intros c H. apply replace_chars in H as [H | []].
    apply replace_chars in H as [H | []]. exact H. }
  change (py " ") with [32%N]. change (py "-") with [45%N].
  rewrite !contains_single.
  destruct (startswith (py "www") plain); [|now split].
  destruct (existsb (eqb plain) [py "www_kwsp"; py "www_kwsp_gov"]); [now split|].
  split; intros H; apply Hwww in H; contradiction.
Qed.

Lemma fix_table_get_in (key : str) (table : list (str * FixChunks.article))
    (info : FixChunks.article) :
  FixChunks.table_get key table = Some info -> exists k, In (k, info) table.
Proof.
  induction table as [|[k a] rest IH]; cbn [FixChunks.table_get];
    [discriminate|].
  destruct (eqb key k).
  - intros [= <-]. exists k. now left.
  - intros H. destruct (IH H) as [k' Hin]. exists k'. now right.
Qed.

(** Whatever the file name, the article that [find_article_info] returns
    is an entry of [ARTICLE_URLS]. *)
Theorem find_article_info_in_table (filename : str) (info : FixChunks.article) :
  FixChunks.find_article_info filename = Some info ->
  exists key, In (key, info) FixChunks.ARTICLE_URLS.
Proof.
  unfold FixChunks.find_article_info.
  destruct (FixChunks.table_get (FixChunks.normalize_filename filename) _)
    as [a|] eqn:Hexact.
  - intros [= <-]. exact (fix_table_get_in _ _ _ Hexact).
  - destruct (FixChunks.table_get (lower filename) _) as [a|] eqn:Hname.
    + intros [= <-]. exact (fix_table_get_in _ _ _ Hname).
    + destruct (find _ FixChunks.ARTICLE_URLS) as [[k a]|] eqn:Hfind;
        [|discriminate].
      intros [= <-]. apply find_spec in Hfind as [pre [post [-> _]]].
      exists k. apply in_or_app. right. now left.
Qed.

Lemma find_article_info_in_table_witness :
  exists key,
    In (key, {| FixChunks.title := py "50-30-20 Rule";
                FixChunks.url := py "https://www.kwsp.gov.my/w/article/50-30-20-rule";
                FixChunks.company := py "KWSP Malaysia" |})
       FixChunks.ARTICLE_URLS.
Proof.
  apply (find_article_info_in_table (py "Budgeting Rule (2).jsonl")).
  vm_compute. reflexivity.
Defined.

(** A file name is mapped as soon as its normalized form occurs inside
    some key of [ARTICLE_URLS]: a one-letter name, or a name that
    normalizes to nothing, gets an article too. *)
Theorem find_article_info_by_fragment (filename key : str)
    (info : FixChunks.article) :
  In (key, info) FixChunks.ARTICLE_URLS ->
  substring (FixChunks.normalize_filename filename) key ->
  exists found, FixChunks.find_article_info filename = Some found.
Proof.
  intros Hin Hsub. unfold FixChunks.find_article_info.
  destruct (FixChunks.table_get (FixChunks.normalize_filename filename) _);
    [now eexists|].
  destruct (FixChunks.table_get (lower filename) _); [now eexists|].
  destruct (find _ FixChunks.ARTICLE_URLS) as [[k a]|] eqn:Hfind;
    [now eexists|exfalso].
  rewrite find_none in Hfind. specialize (Hfind (key, info) Hin).
  cbv beta zeta in Hfind. cbn [fst] in Hfind.
  apply contains_spec in Hsub. rewrite Hsub in Hfind.
  rewrite orb_true_r in Hfind. discriminate Hfind.
Qed.

Lemma find_article_info_by_fragment_witness :
  exists found, FixChunks.find_article_info (py "a.jsonl") = Some found.
Proof.
  apply (find_article_info_by_fragment (py "a.jsonl")
           (py "smart_budgeting_technique")
           {| FixChunks.title := py "Smart Budgeting Technique";
              FixChunks.url := py "https://www.kwsp.gov.my/w/infographic/smart-budgeting-technique";
              FixChunks.company := py "KWSP Malaysia" |}).
  - vm_compute. left. reflexivity.
  - exists (py "sm"), (py "rt_budgeting_technique"). vm_compute. reflexivity.
Defined.

Lemma eqb_neq (a b : str) : a <> b -> eqb a b = false.
Proof.
  intros Hne. destruct (eqb a b) eqn:E; [|reflexivity].
  apply eqb_eq in E. contradiction.
Qed.

Lemma update_chunk_result (filename : str) (info : FixChunks.article)
    (chunk chunk' : json) :
  FixChunks.update_chunk filename info chunk = Some chunk' ->
  exists items items' md',
    chunk = JDict items
    /\ chunk' = JDict items'
    /\ Json.get (py "metadata") items' = Some (JDict md')
    /\ md' = Json.set (py "from") (JStr (FixChunks.company info))
               (Json.set (py "url") (JStr (FixChunks.url info))
                  (Json.set (py "title") (JStr (FixChunks.title info))
                     (Json.set (py "source") (JStr filename)
                        (metadata_of items))))
    /\ forall k, k <> py "metadata" -> Json.get k items' = Json.get k items.
Proof.
  unfold FixChunks.update_chunk, metadata_of.
  destruct chunk as [| | | | |?|items]; try discriminate.
  cbv zeta.
  destruct (Json.get (py "metadata") items) as [v|] eqn:Hmeta.
  - rewrite Hmeta. destruct v as [| | | | |?|md]; try discriminate.
    intros [= <-]. eexists items, _, _.
    split; [reflexivity|]. split; [reflexivity|].
    split; [apply get_set_same|]. split; [now rewrite Hmeta|].
    intros k Hk. apply get_set_other. now apply eqb_neq.
  - rewrite get_set_same.
    intros [= <-]. eexists items, _, _.
    split; [reflexivity|]. split; [reflexivity|].
    split; [apply get_set_same|]. split; [now rewrite Hmeta|].
    intros k Hk. rewrite !get_set_other by now apply eqb_neq. reflexivity.
Qed.

(** What the pass does to one chunk: the metadata holds the file name
    under "source" and the title, address and company of the article under
    "title", "url" and "from"; every other metadata entry and every other
    field of the chunk reads as before. *)
Theorem update_chunk_sets_and_keeps (filename : str) (info : FixChunks.article)
    (chunk chunk' : json) :
  FixChunks.update_chunk filename info chunk = Some chunk' ->
  exists items items' md',
    chunk = JDict items
    /\ chunk' = JDict items'
    /\ Json.get (py "metadata") items' = Some (JDict md')
    /\ Json.get (py "source") md' = Some (JStr filename)
    /\ Json.get (py "title") md' = Some (JStr (FixChunks.title info))
    /\ Json.get (py "url") md' = Some (JStr (FixChunks.url info))
    /\ Json.get (py "from") md' = Some (JStr (FixChunks.company info))
    /\ (forall k, ~ In k fixed_keys ->
                  Json.get k md' = Json.get k (metadata_of items))
    /\ (forall k, k <> py "metadata" -> Json.get k items' = Json.get k items).
Proof.
  intros H.
  destruct (update_chunk_result _ _ _ _ H)
    as [items [items' [md' [Hc [Hc' [Hmeta [Hmd Hframe]]]]]]].
  exists items, items', md'. repeat split; try assumption; subst md'.
  - rewrite !get_set_other by (vm_compute; reflexivity). apply get_set_same.
  - rewrite !get_set_other by (vm_compute; reflexivity). apply get_set_same.
  - rewrite !get_set_other by (vm_compute; reflexivity). apply get_set_same.
  - apply get_set_same.
  - intros k Hk. unfold fixed_keys in Hk. cbn [In] in Hk.
    rewrite !get_set_other; [reflexivity| | | |];
      apply eqb_neq; intros ->; apply Hk; tauto.
Qed.

Lemma update_chunk_sets_and_keeps_witness :
  exists items',
    FixChunks.update_chunk (py "budgeting_rule.jsonl")
      {| FixChunks.title := py "50-30-20 Rule";
         FixChunks.url := py "https://www.kwsp.gov.my/w/article/50-30-20-rule";
         FixChunks.company := py "KWSP Malaysia" |}
      (JDict [ (py "text", JStr (py "Needs, wants, savings."));
               (py "metadata", JDict [(py "page", JInt 4)]) ])
    = Some (JDict items')
    /\ Json.get (py "text") items' = Some (JStr (py "Needs, wants, savings.")).
Proof.
  destruct (update_chunk_sets_and_keeps (py "budgeting_rule.jsonl")
              {| FixChunks.title := py "50-30-20 Rule";
                 FixChunks.url := py "https://www.kwsp.gov.my/w/article/50-30-20-rule";
                 FixChunks.company := py "KWSP Malaysia" |}
              (JDict [ (py "text", JStr (py "Needs, wants, savings."));
                       (py "metadata", JDict [(py "page", JInt 4)]) ])
              _ eq_refl)
    as [items [items' [md' [Hc [Hc' [_ [_ [_ [_ [_ [_ Hframe]]]]]]]]]]].
  exists items'. split.
  - rewrite <- Hc'. reflexivity.
  - injection Hc as <-. rewrite Hframe; [reflexivity|].
    vm_compute. discriminate.
Defined.




(** ** Letter case of file names *)

Lemma lower_char_idempotent (c : char) : lower_char (lower_char c) = lower_char c.
Proof.
  unfold lower_char, between.
  destruct (N.leb_spec 65 c), (N.leb_spec c 90), (N.leb_spec 192 c),
    (N.leb_spec c 214), (N.leb_spec 216 c), (N.leb_spec c 222);
    cbn [andb orb]; try lia;
    repeat match goal with
           | |- context [(?a <=? ?b)%N] => destruct (N.leb_spec a b)
           end; cbn [andb orb]; lia.
Qed.

Lemma lower_idempotent (s : str) : lower (lower s) = lower s.
Proof.
  unfold lower. rewrite map_map. apply map_ext. exact lower_char_idempotent.
Qed.

(** The letter case of a file name plays no part in the lookup of its
    article nor in the decision to skip it: the lowercased name gives the
    same results. *)
Theorem file_name_case_is_ignored (filename : str) :
  FixChunks.find_article_info (lower filename)
  = FixChunks.find_article_info filename
  /\ ConvertRag.should_skip_file (lower filename)
     = ConvertRag.should_skip_file filename.
Proof.
  unfold FixChunks.find_article_info, FixChunks.normalize_filename,
    ConvertRag.should_skip_file.
  now rewrite !lower_idempotent.
Qed.

(** ** The source entry of the chat page *)

(** A chunk whose metadata has no source file and a title that is [None]
    cannot be displayed: [get_article_info] returns, and then the entry
    code calls [lower] on the missing name and raises. *)
Theorem show_source_null_title (basename : str -> str) (metadata : dict) :
  dict_get (py "source_file") metadata = None ->
  dict_get (py "title") metadata = Some PNone ->
  (exists u, get_article_info basename PNone metadata = Some (PNone, u))
  /\ show_source basename metadata = None.
Proof.
  intros Hfile Htitle. split.
  - unfold get_article_info, get_default. rewrite Hfile, Htitle.
    now eexists.
  - unfold show_source, get_article_info, get_default.
    rewrite Hfile, Htitle. reflexivity.
Qed.

Lemma show_source_null_title_witness :
  show_source (fun path => path)
    [ (py "title", PNone); (py "source", PStr (py "budgeting_rule.jsonl")) ]
  = None.
Proof.
  apply (proj2 (show_source_null_title (fun path => path)
                  [ (py "title", PNone);
                    (py "source", PStr (py "budgeting_rule.jsonl")) ]
                  eq_refl eq_refl)).
Defined.

Lemma lalua_block_title (source_key : str) (meta_title : pyval)
    (r : pyval * str) :
  lalua_block source_key meta_title = Some (Some r) ->
  exists t, fst r = PStr t.
Proof.
  unfold lalua_block.
  destruct (key_or_title source_key meta_title [py "lalua"]) as [[|]|];
    try discriminate.
  destruct (key_or_title source_key meta_title [py "mistake"]) as [[|]|];
    try discriminate; [intros [= <-]; now eexists|].
  destruct (key_or_title source_key meta_title [py "budget"]) as [[|]|];
    try discriminate; [intros [= <-]; now eexists|].
  destruct (key_or_title source_key meta_title [py "mindset"; py "freedom"])
    as [[|]|]; try discriminate.
  intros [= <-]; now eexists.
Qed.

Lemma title_block_title (meta_title : pyval) (r : pyval * str) :
  title_block meta_title = Some (Some r) -> exists t, fst r = PStr t.
Proof.
  unfold title_block. destruct (truthy meta_title); [|discriminate].
  destruct meta_title as [|t|n]; try discriminate.
  destruct (table_get (normalize_key t) ARTICLE_URLS) as [info|];
    [intros [= <-]; now eexists|].
  destruct (partial_match (normalize_key t) ARTICLE_URLS) as [info|];
    [|discriminate].
  intros [= <-]; now eexists.
Qed.

Lemma get_default_str (metadata : dict) (k : str) (default : pyval) :
  (forall key v, dict_get key metadata = Some v -> exists s, v = PStr s) ->
  (exists s, default = PStr s) ->
  exists s, get_default metadata k default = PStr s.
Proof.
  intros Hmeta Hdefault. unfold get_default.
  destruct (dict_get k metadata) as [v|] eqn:E; [exact (Hmeta _ _ E) | exact Hdefault].
Qed.

Lemma get_article_info_title_text (basename : str -> str) (name : str)
    (metadata : dict) (t : pyval) (u : str) :
  (forall key v, dict_get key metadata = Some v -> exists s, v = PStr s) ->
  get_article_info basename (PStr name) metadata = Some (t, u) ->
  exists ts, t = PStr ts.
Proof.
  intros Hmeta H. unfold get_article_info in H.
  repeat match type of H with
         | match ?e with _ => _ end = _ =>
             let E := fresh "E" in destruct e eqn:E; try discriminate H
         end;
    inversion H; subst;
    first [ now eexists
          | apply get_default_str; [exact Hmeta | now eexists]
          | match goal with
            | E : lalua_block _ _ = Some (Some ?r) |- _ =>
                exact (lalua_block_title _ _ _ E)
            end
          | match goal with
            | E : title_block _ = Some (Some ?r) |- _ =>
                exact (title_block_title _ _ E)
            end
          | match goal with
            | Ht : negb (truthy ?p) = false,
              Hk : (if truthy ?p then _ else _) = Some _ |- _ =>
                destruct p as [|ps|n]; cbn [truthy negb] in Ht, Hk;
                [ discriminate Ht
                | apply get_default_str; [exact Hmeta | now eexists]
                | destruct (n =? 0)%Z; cbn [negb] in Ht, Hk; discriminate ]
            end ].
Qed.

(** When every metadata value is a text, the entry code of the chat page
    gets a title, an address and an attribution for the chunk: nothing in
    it raises. *)
Theorem show_source_total (basename : str -> str) (metadata : dict) :
  (forall key v, dict_get key metadata = Some v -> exists s, v = PStr s) ->
  exists view, show_source basename metadata = Some view.
Proof.
  intros Hmeta.
  assert (Htext : forall key v, dict_get key metadata = Some v ->
                                text_or_none v = true).
  { intros key v Hv. destruct (Hmeta key v Hv) as [s ->]. reflexivity. }
  unfold show_source.
  destruct (get_default_str metadata (py "source_file") (PStr []) Hmeta)
    as [file Hfile]; [now eexists|]. rewrite Hfile.
  assert (Hname : exists name,
             (if truthy (PStr file)
              then Some (PStr (basename file))
              else Some (get_default metadata (py "title")
                           (get_default metadata (py "source") (PStr []))))
             = Some (PStr name)).
  { destruct (truthy (PStr file)); [now eexists|].
    destruct (get_default_str metadata (py "title")
                (get_default metadata (py "source") (PStr [])) Hmeta)
      as [name Hn].
    - apply get_default_str; [exact Hmeta | now eexists].
    - rewrite Hn. now eexists. }
  destruct Hname as [name Hname]. rewrite Hname.
  destruct (get_article_info_total basename (PStr name) metadata eq_refl Htext)
    as [[t u] Hinfo].
  rewrite Hinfo.
  destruct (get_article_info_title_text basename name metadata t u Hmeta Hinfo)
    as [ts ->].
  destruct (contains (py "lalua") (lower name)); now eexists.
Qed.

Lemma show_source_total_witness :
  exists view,
    show_source (fun path => path)
      [ (py "source", PStr (py "emergency_fund.jsonl"));
        (py "section", PStr (py "Why it matters")) ] = Some view.
Proof.
  apply show_source_total.
  intros key v. cbn [dict_get].
  destruct (eqb key (py "source")); [intros [= <-]; now eexists|].
  destruct (eqb key (py "section")); [intros [= <-]; now eexists|].
  discriminate.
Defined.
